(** * LabStatus: the notification engine of [LabStatus.py]

    A shallow embedding of the watchdog handler [LabHandler], of the command
    loop [get_input] and of the month directory resolution [viia7_path],
    followed by the properties of the de-duplication ledger, of the two
    notify counters and of the renderer.

    Conventions of the model:
    - Python [int] is [Z]; [str] is [string], restricted to ASCII text
      (so [str.lower] and [str.isdigit] are the ASCII ones);
    - the handler's class attributes form the record [LabHandler]; every
      method is a computation in the monad [M], which threads that record
      and collects the console and window effects in order;
    - what the process reads from its environment (login name, file sizes,
      local time, existing directories) is an explicit argument; the clock
      is read once per callback, so the lines one callback prints carry the
      same time stamp;
    - the two locks are not modelled: handler calls and commands are
      interleaved at the granularity of one call. *)

From Stdlib Require Import ZArith Ascii String List Lia.
From stdpp Require Import base list strings pretty gmap.

Local Open Scope string_scope.
Local Open Scope Z_scope.

(** ** Python string primitives *)

Module Py.

(** [sub in s] *)
Fixpoint contains (sub s : string) : bool :=
  String.prefix sub s ||
  match s with
  | EmptyString => false
  | String _ s' => contains sub s'
  end.

(** [c.lower()] and [s.lower()] on ASCII text *)
Definition lower_ascii (c : ascii) : ascii :=
  let n := nat_of_ascii c in
  if ((65 <=? n) && (n <=? 90))%nat then ascii_of_nat (n + 32) else c.

Fixpoint lower (s : string) : string :=
  match s with
  | EmptyString => EmptyString
  | String c s' => String (lower_ascii c) (lower s')
  end.

(** [c.isdigit()] and [int(c)] for one ASCII character *)
Definition isdigit (c : ascii) : bool :=
  let n := nat_of_ascii c in ((48 <=? n) && (n <=? 57))%nat.

Definition int_of_char (c : ascii) : Z :=
  Z.of_nat (nat_of_ascii c) - 48.

(** [str(n)] for an [int] *)
Definition str (n : Z) : string := pretty n.

(** [s.ljust(width, fill)] *)
Definition ljust (width : nat) (fill : ascii) (s : string) : string :=
  s +:+ String.concat "" (repeat (String fill "") (width - String.length s)).

(** [s.split(sep)] for a one-character separator: never the empty list *)
Fixpoint split (sep : ascii) (s : string) : list string :=
  match s with
  | EmptyString => [EmptyString]
  | String c s' =>
      if Ascii.eqb c sep then EmptyString :: split sep s'
      else match split sep s' with
           | [] => [String c EmptyString]
           | h :: t => String c h :: t
           end
  end.

(** [l[-1]] on a list that [split] returned *)
Definition last_item (l : list string) : string := List.last l EmptyString.

(** [s.rfind(c)]: the last index of [c] in [s], or [-1] *)
Fixpoint rfind_from (c : ascii) (s : string) (i acc : Z) : Z :=
  match s with
  | EmptyString => acc
  | String a s' => rfind_from c s' (i + 1) (if Ascii.eqb a c then i else acc)
  end.

Definition rfind (c : ascii) (s : string) : Z := rfind_from c s 0 (-1).

(** [s[i:j]] for [0 <= i] *)
Definition slice (s : string) (i j : Z) : string :=
  String.substring (Z.to_nat i) (Z.to_nat (j - i)) s.

Fixpoint all_dots (s : string) : bool :=
  match s with
  | EmptyString => true
  | String c s' => Ascii.eqb c "." && all_dots s'
  end.

(** [os.path.splitext(p)[0]] of [ntpath]: the extension starts at the last
    dot that follows the last separator ([\] or [/]), unless only dots
    stand between that separator and it. *)
Definition splitext_root (p : string) : string :=
  let sepIndex := Z.max (rfind "\" p) (rfind "/" p) in
  let dotIndex := rfind "." p in
  if (sepIndex <? dotIndex) && negb (all_dots (slice p (sepIndex + 1) dotIndex))
  then slice p 0 dotIndex
  else p.

End Py.

(** ** Console collaborators: colorama's escape sequences *)

Definition CSI : string := String (ascii_of_nat 27) "[".
Definition code_to_chars (code : string) : string := CSI +:+ code +:+ "m".

Module Fore.
Definition RED : string := code_to_chars "31".
Definition GREEN : string := code_to_chars "32".
Definition MAGENTA : string := code_to_chars "35".
Definition CYAN : string := code_to_chars "36".
End Fore.

Module Style.
Definition BRIGHT : string := code_to_chars "1".
Definition NORMAL : string := code_to_chars "22".
Definition RESET_ALL : string := code_to_chars "0".
End Style.

(** ** The environment of one handler call *)

(** [time.localtime()], the fields [strftime] reads *)
Record struct_time := {
  tm_year : nat; tm_mon : nat; tm_mday : nat; tm_hour : nat; tm_min : nat
}.

Definition two_digits (n : nat) : string :=
  if (n <? 10)%nat then "0" +:+ pretty n else pretty n.

(** [time.strftime("%d.%m.%y %H:%M ", t)] *)
Definition strftime_stamp (t : struct_time) : string :=
  two_digits (tm_mday t) +:+ "." +:+ two_digits (tm_mon t) +:+ "." +:+
  two_digits (tm_year t mod 100) +:+ " " +:+
  two_digits (tm_hour t) +:+ ":" +:+ two_digits (tm_min t) +:+ " ".

(** [os.stat(path)]: the size in bytes, or the [OSError] (of which
    [FileNotFoundError] is a subclass) with its message *)
Inductive stat_result :=
  | st_size (bytes : Z)
  | OSError (message : string).

Record world := {
  getlogin : string;                 (* os.getlogin() *)
  os_stat : string -> stat_result;   (* os.stat at the time of the call *)
  localtime : struct_time            (* time.localtime() at the time of the call *)
}.

(** ** Events and the handler's attributes *)

(** [event.event_type]: [created], [modified], [moved] or [deleted] *)
Inductive event_kind := created | modified | moved | deleted.

Record event := {
  event_type : event_kind;
  is_directory : bool;
  src_path : string
}.

Definition is_modified (e : event) : bool :=
  match event_type e with modified => true | _ => false end.

(** The class attributes that change: the deque of recent paths (oldest
    first) and the two counters. *)
Record LabHandler := {
  recent_events : list string;
  _q_cnt : Z;
  _v_cnt : Z
}.

Definition maxlen : nat := 30.

(** [deque.append] on a deque bounded by [maxlen]: push right, then drop
    the leftmost entry if the bound is exceeded *)
Definition deque_append (d : list string) (x : string) : list string :=
  let d' := (d ++ [x])%list in
  if (maxlen <? length d')%nat then tail d' else d'.

(** [LabHandler()] as the class body leaves it: [deque('ghi', maxlen=30)] *)
Definition initial : LabHandler :=
  {| recent_events := ["g"; "h"; "i"]; _q_cnt := 0; _v_cnt := 0 |}.

Definition viia7_str : string := Fore.CYAN +:+ "Viia7" +:+ Style.RESET_ALL +:+ ":  ".
Definition qiaxcel_str : string := Fore.MAGENTA +:+ "Qiaxcel" +:+ Style.RESET_ALL +:+ ":".

(** ** Effects and the handler monad *)

Inductive effect :=
  | Print (text : string)      (* print(text) *)
  | FlashWindow                (* user32.FlashWindow(console, True) *)
  | Sleep (seconds : Z).       (* time.sleep(seconds) *)

Definition M (A : Type) : Type := LabHandler -> A * LabHandler * list effect.

Definition M_ret {A} (a : A) : M A := fun h => (a, h, []).

Definition M_bind {A B} (f : A -> M B) (m : M A) : M B :=
  fun h => let '(a, h1, t1) := m h in
           let '(b, h2, t2) := f a h1 in
           (b, h2, (t1 ++ t2)%list).

#[global] Instance M_mret : MRet M := @M_ret.
#[global] Instance M_mbind : MBind M := @M_bind.

Definition gets {A} (f : LabHandler -> A) : M A := fun h => (f h, h, []).
Definition modify (f : LabHandler -> LabHandler) : M unit := fun h => (tt, f h, []).
Definition emit (e : effect) : M unit := fun h => (tt, h, [e]).
Definition print (text : string) : M unit := emit (Print text).

Definition set_recent_events (d : list string) (h : LabHandler) : LabHandler :=
  {| recent_events := d; _q_cnt := _q_cnt h; _v_cnt := _v_cnt h |}.
Definition set_q_cnt (x : Z) (h : LabHandler) : LabHandler :=
  {| recent_events := recent_events h; _q_cnt := x; _v_cnt := _v_cnt h |}.
Definition set_v_cnt (x : Z) (h : LabHandler) : LabHandler :=
  {| recent_events := recent_events h; _q_cnt := _q_cnt h; _v_cnt := x |}.

(** The parts of a finished computation *)
Definition value {A} (r : A * LabHandler * list effect) : A := r.1.1.
Definition handler {A} (r : A * LabHandler * list effect) : LabHandler := r.1.2.
Definition trace {A} (r : A * LabHandler * list effect) : list effect := r.2.

(** What reached the console, and whether the window was flashed *)
Definition console (t : list effect) : list string :=
  omap (fun e => match e with Print s => Some s | _ => None end) t.
Definition flashed (t : list effect) : bool :=
  existsb (fun e => match e with FlashWindow => true | _ => false end) t.

(** ** The methods of [LabHandler] *)

(** [get_event_info]: the coloured machine label and the base name of the
    file without its extension *)
Definition file_name (path : string) : string :=
  Py.last_item (Py.split "\" (Py.splitext_root path)).

Definition get_event_info (e : event) : string * string :=
  let machine := if is_modified e then viia7_str else qiaxcel_str in
  (machine, file_name (src_path e)).

Definition bright_time (w : world) : string :=
  Style.BRIGHT +:+ strftime_stamp (localtime w) +:+ Style.NORMAL.

(** The test of line 53: login in the lowered path, or the counter is 1,
    or the counter is above 9 *)
Definition notif_test (w : world) (path : string) (_x_cnt : Z) : bool :=
  Py.contains (getlogin w) (Py.lower path) || (_x_cnt =? 1) || (9 <? _x_cnt).

Definition distinguished_message (machine file : string) : string :=
  Fore.GREEN +:+ Py.ljust 21 " " (">>> " +:+ machine) +:+
  " " +:+ (Fore.GREEN +:+ file +:+ Style.RESET_ALL) +:+ " has finished!".

Definition normal_message (machine file : string) : string :=
  Py.ljust 21 " " (" -  " +:+ machine) +:+
  " " +:+ (Style.BRIGHT +:+ file +:+ Style.RESET_ALL) +:+ " has finished.".

(** [self.recent_events.append(path)] *)
Definition record (path : string) : M unit :=
  modify (fun h => set_recent_events (deque_append (recent_events h) path) h).

Definition notif (w : world) (e : event) (_x_cnt : Z) : M Z :=
  record (src_path e);;
  let '(machine, file) := get_event_info e in
  message ← (if notif_test w (src_path e) _x_cnt
             then emit FlashWindow;; mret (distinguished_message machine file)
             else mret (normal_message machine file));
  print (bright_time w +:+ message);;
  (if _x_cnt =? 1
   then print (Py.ljust 19 " " "" +:+ machine +:+ " No longer notifying.")
   else mret tt);;
  mret (_x_cnt - 1).

(** [notify_setting]; [None] is Python's implicit return *)
Definition notify_setting (machine : string) (_x_cnt : Z) : option string :=
  if (0 <? _x_cnt) && (_x_cnt <? 10) then
    Some (Py.ljust 19 " " "" +:+ machine +:+ " Notifying in " +:+ Py.str _x_cnt +:+ " runs time")
  else if 9 <? _x_cnt then
    Some (Py.ljust 19 " " "" +:+ machine +:+ " Notifying for all runs")
  else if _x_cnt <? 1 then
    Some (Py.ljust 19 " " "" +:+ machine +:+ " Notify OFF")
  else None.

(** The properties [q_cnt] and [v_cnt]: getters, then setters *)
Definition q_cnt : M (option string) :=
  gets (fun h => notify_setting qiaxcel_str (_q_cnt h)).

Definition v_cnt : M (option string) :=
  gets (fun h => notify_setting viia7_str (_v_cnt h)).

Definition q_cnt_setter (x : Z) : M unit :=
  if x =? 0
  then modify (fun h => set_q_cnt (if 0 <? _q_cnt h then 0 else 1337) h)
  else modify (set_q_cnt x).

Definition v_cnt_setter (x : Z) : M unit :=
  if x =? 0
  then modify (fun h => set_v_cnt (if 0 <? _v_cnt h then 0 else 1337) h)
  else modify (set_v_cnt x).

Definition size_threshold : Z := 1300000.

Definition is_large_enough (w : world) (path : string) : M bool :=
  match os_stat w path with
  | st_size bytes => mret (size_threshold <? bytes)
  | OSError e =>
      let file := file_name path in
      print (Fore.RED +:+ " " +:+ e +:+ " " +:+ Style.RESET_ALL);;
      print (bright_time w +:+ Py.ljust 21 " " (" -  " +:+ viia7_str) +:+ file +:+
             " wasn't saved properly!" +:+
             " You'll need to analyse and save the run again from the machine.");;
      mret true
  end.

Definition seen (path : string) (h : LabHandler) : bool :=
  bool_decide (path ∈ recent_events h).

Definition on_modified (w : world) (e : event) : M unit :=
  emit (Sleep 1);;
  fresh ← gets (fun h => Py.contains ".eds" (src_path e) && negb (seen (src_path e) h));
  if fresh : bool then
    large ← is_large_enough w (src_path e);
    if large : bool then
      x ← gets _v_cnt;
      x' ← notif w e x;
      modify (set_v_cnt x')
    else mret tt
  else mret tt.

Definition on_created (w : world) (e : event) : M unit :=
  fresh ← gets (fun h => Py.contains ".xdrx" (src_path e) && negb (seen (src_path e) h));
  if fresh : bool then
    x ← gets _q_cnt;
    x' ← notif w e x;
    modify (set_q_cnt x')
  else mret tt.

(** The callback that watchdog's [dispatch] selects by event type: the
    handler overrides two of them and inherits the empty ones of the others.
    The pattern filter that watchdog applies before, and that can only drop
    an event, is not modelled. *)
Definition dispatch (w : world) (e : event) : M unit :=
  match event_type e with
  | modified => on_modified w e
  | created => on_created w e
  | moved | deleted => mret tt
  end.

(** ** The command loop *)

Definition nl : string := String (ascii_of_nat 10) "".

Definition help_usage : string :=
  "Monitors Qiaxcel and Viia7 for file events and prints a notification." +:+ nl +:+
  "Files with your username in the path will generate a distinguished notification." +:+ nl +:+
  "Commands may be given to notify you on other events, e.g. All runs or in n run's time." +:+ nl.

Definition help_commands : string :=
  "Commands - q (Qiaxcel), v (Viia7) and a single digit or some combination." +:+ nl +:+
  "Any digit after the first is ignored. e.g: q, q5, v4, qv3. q54 == q5." +:+ nl +:+
  "No number will toggle notifications on all events, a number will notify after n events." +:+ nl.

(** The [for ... else] of lines 135-140: the first digit of the line, else 0 *)
Fixpoint first_digit (inp : string) : Z :=
  match inp with
  | EmptyString => 0
  | String char rest =>
      if Py.isdigit char then Py.int_of_char char else first_digit rest
  end.

Definition str_or_None (o : option string) : string := default "None" o.

(** One turn of the [while True] loop, on the line [inp] *)
Definition command (inp : string) : M unit :=
  (if String.eqb inp "help"
   then print help_usage;; print help_commands
   else mret tt);;
  let count := first_digit inp in
  (if Py.contains "q" (Py.lower inp)
   then q_cnt_setter count;; s ← q_cnt; print (str_or_None s)
   else mret tt);;
  (if Py.contains "v" (Py.lower inp)
   then v_cnt_setter count;; s ← v_cnt; print (str_or_None s)
   else mret tt).

(** [get_input] on the lines standard input delivers before it is closed *)
Fixpoint get_input (lines : list string) : M unit :=
  match lines with
  | [] => mret tt
  | inp :: rest => command inp;; get_input rest
  end.

(** ** Month directories of the Viia7 *)

Inductive month :=
  | Jan | Feb | Mar | Apr | May | Jun | Jul | Aug | Sep | Oct | Nov | Dec.

(** [datetime.date] *)
Record date := { year : Z; mon : month; day : Z }.

(** [strftime('%b')], [strftime('%B')] and [strftime('%Y')] in the C locale *)
Definition strftime_b (m : month) : string :=
  match m with
  | Jan => "Jan" | Feb => "Feb" | Mar => "Mar" | Apr => "Apr"
  | May => "May" | Jun => "Jun" | Jul => "Jul" | Aug => "Aug"
  | Sep => "Sep" | Oct => "Oct" | Nov => "Nov" | Dec => "Dec"
  end.

Definition strftime_B (m : month) : string :=
  match m with
  | Jan => "January" | Feb => "February" | Mar => "March" | Apr => "April"
  | May => "May" | Jun => "June" | Jul => "July" | Aug => "August"
  | Sep => "September" | Oct => "October" | Nov => "November" | Dec => "December"
  end.

Definition strftime_Y (y : Z) : string := Py.str y.

Definition is_leap (y : Z) : bool :=
  (y mod 4 =? 0) && (negb (y mod 100 =? 0) || (y mod 400 =? 0)).

Definition days_in_month (y : Z) (m : month) : Z :=
  match m with
  | Feb => if is_leap y then 29 else 28
  | Apr | Jun | Sep | Nov => 30
  | _ => 31
  end.

Definition pred_month (m : month) : month :=
  match m with
  | Jan => Dec | Feb => Jan | Mar => Feb | Apr => Mar
  | May => Apr | Jun => May | Jul => Jun | Aug => Jul
  | Sep => Aug | Oct => Sep | Nov => Oct | Dec => Nov
  end.

Definition MINYEAR : Z := 1.

Inductive exn := FileNotFoundError | OverflowError.

Inductive result (A : Type) :=
  | Return (a : A)
  | Raise (e : exn).
Arguments Return {A} a.
Arguments Raise {A} e.

(** [d.replace(day=1)] *)
Definition replace_day_1 (d : date) : date :=
  {| year := year d; mon := mon d; day := 1 |}.

(** [d - datetime.timedelta(days=1)]; before the first day of [MINYEAR]
    Python raises [OverflowError] *)
Definition minus_one_day (d : date) : result date :=
  if 1 <? day d then Return {| year := year d; mon := mon d; day := day d - 1 |}
  else match mon d with
       | Jan =>
           if MINYEAR <? year d
           then Return {| year := year d - 1; mon := Dec; day := 31 |}
           else Raise OverflowError
       | m =>
           Return {| year := year d; mon := pred_month m;
                     day := days_in_month (year d) (pred_month m) |}
       end.

Definition build_path (month year : string) : string :=
  "\\File01-s0\Team121\Genotyping\qPCR " +:+ year +:+ "\Experiments\" +:+ month +:+ " " +:+ year.

(** The file system as the set of paths that are directories.
    [os.makedirs(path, exist_ok=True)] makes [path] one of them (its
    ancestors, which it creates too, are not tracked). *)
Definition isdir (dirs : gset string) (path : string) : bool :=
  bool_decide (path ∈ dirs).

Definition os_makedirs (path : string) (dirs : gset string) : gset string :=
  {[ path ]} ∪ dirs.

(** What a call leaves behind: its outcome, the directories, the console *)
Record outcome := {
  returned : result string;
  dirs_after : gset string;
  printed : list string
}.

(** [viia7_path(last)], with [today] for [datetime.date.today()].
    [month, year] are the two words of [strftime('%b %Y')]. *)
Definition viia7_path (today : date) (last : bool) (dirs : gset string) : outcome :=
  let makedirs := negb last in
  match (if last then minus_one_day (replace_day_1 today) else Return today) with
  | Raise e => {| returned := Raise e; dirs_after := dirs; printed := [] |}
  | Return date =>
      let month := strftime_b (mon date) in
      let year := strftime_Y (year date) in
      let path := build_path month year in
      if isdir dirs path then
        {| returned := Return path; dirs_after := dirs; printed := [] |}
      else
        let month_full := strftime_B (mon date) in
        let path2 := build_path month_full year in
        if isdir dirs path2 then
          {| returned := Return path2; dirs_after := dirs; printed := [] |}
        else if String.eqb month "Sep" && isdir dirs (build_path "Sept" year) then
          {| returned := Return (build_path "Sept" year); dirs_after := dirs; printed := [] |}
        else if makedirs then
          {| returned := Return path; dirs_after := os_makedirs path dirs; printed := [] |}
        else
          {| returned := Raise FileNotFoundError; dirs_after := dirs;
             printed := ["Cant find last month's Viia7 Path"] |}
  end.

(** The three directory names [viia7_path] may try for the month of [d],
    and the date it resolves *)
Definition abbr_path (d : date) : string :=
  build_path (strftime_b (mon d)) (strftime_Y (year d)).
Definition full_path (d : date) : string :=
  build_path (strftime_B (mon d)) (strftime_Y (year d)).
Definition sept_path (d : date) : string :=
  build_path "Sept" (strftime_Y (year d)).

Definition resolved_date (today : date) (last : bool) : result date :=
  if last then minus_one_day (replace_day_1 today) else Return today.

(** ** Vocabulary of the properties *)

(** The login name occurs in the path, letter case ignored. *)
Definition appears_ci (name path : string) : bool :=
  Py.contains (Py.lower name) (Py.lower path).

(** A render is distinguished when the window was flashed and the first line
    on the console is the green [>>> ... has finished!] message; it is normal
    when nothing flashed and that line is the [ -  ... has finished.] one. *)
Definition first_line_is (line : string) (t : list effect) : bool :=
  bool_decide (head (console t) = Some line).

Definition rendered_distinguished (w : world) (e : event) (t : list effect) : bool :=
  flashed t &&
  first_line_is (bright_time w +:+ distinguished_message (get_event_info e).1 (get_event_info e).2) t.

Definition rendered_normal (w : world) (e : event) (t : list effect) : bool :=
  negb (flashed t) &&
  first_line_is (bright_time w +:+ normal_message (get_event_info e).1 (get_event_info e).2) t.

(** The effects of one render, in order *)
Definition notif_effects (w : world) (e : event) (x : Z) : list effect :=
  let '(machine, file) := get_event_info e in
  ((if notif_test w (src_path e) x
    then [FlashWindow; Print (bright_time w +:+ distinguished_message machine file)]
    else [Print (bright_time w +:+ normal_message machine file)]) ++
   (if x =? 1
    then [Print (Py.ljust 19 " " "" +:+ machine +:+ " No longer notifying.")]
    else []))%list.

Definition login_absent (w : world) (e : event) : Prop :=
  appears_ci (getlogin w) (src_path e) = false.

(** Consecutive renders for one source: the counter each render returns is
    the one the next render receives; the traces are kept apart. *)
Fixpoint render_all (w : world) (es : list event) (x : Z) (h : LabHandler)
  : Z * LabHandler * list (list effect) :=
  match es with
  | [] => (x, h, [])
  | e :: es' =>
      let r := notif w e x h in
      let rs := render_all w es' (value r) (handler r) in
      (rs.1.1, rs.1.2, trace r :: rs.2)
  end.

(** Recording a run of paths, one after the other *)
Fixpoint record_all (paths : list string) : M unit :=
  match paths with
  | [] => mret tt
  | path :: rest => record path;; record_all rest
  end.

(** Created events handled one after the other *)
Fixpoint on_created_all (w : world) (es : list event) : M unit :=
  match es with
  | [] => mret tt
  | e :: es' => on_created w e;; on_created_all w es'
  end.

(** An event on a [.xdrx] path without the login name *)
Definition qiaxcel_run (w : world) (e : event) : Prop :=
  Py.contains ".xdrx" (src_path e) = true /\ login_absent w e.

(** The two sources and their counters *)
Inductive source := Viia7 | Qiaxcel.

Definition counter (s : source) (h : LabHandler) : Z :=
  match s with Viia7 => _v_cnt h | Qiaxcel => _q_cnt h end.

Definition set_counter (s : source) (x : Z) : M unit :=
  match s with Viia7 => v_cnt_setter x | Qiaxcel => q_cnt_setter x end.


(** A call that left no mark: same attributes, nothing on the console, no
    flash *)
Definition unnoticed (r : unit * LabHandler * list effect) (h : LabHandler) : Prop :=
  handler r = h /\ console (trace r) = [] /\ flashed (trace r) = false.

(** The deque never holds more than [maxlen] paths. *)
Definition bounded (h : LabHandler) : Prop :=
  (length (recent_events h) <= maxlen)%nat.

(** ** Sample inputs *)

Definition noon : struct_time :=
  {| tm_year := 2019; tm_mon := 3; tm_mday := 7; tm_hour := 12; tm_min := 5 |}.

(** A user whose login name is in lower case, and one whose is not; every
    file is 2,000,000 bytes long. *)
Definition jon_world : world :=
  {| getlogin := "jon"; os_stat := fun _ => st_size 2000000; localtime := noon |}.

Definition Jon_world : world :=
  {| getlogin := "Jon"; os_stat := fun _ => st_size 2000000; localtime := noon |}.

Definition created_at (path : string) : event :=
  {| event_type := created; is_directory := false; src_path := path |}.

Definition modified_at (path : string) : event :=
  {| event_type := modified; is_directory := false; src_path := path |}.

(** Thirty-one distinct paths: [C:\Dna\run1.xdrx] to [C:\Dna\run31.xdrx] *)
Definition run_path (n : nat) : string := "C:\Dna\run" +:+ pretty n +:+ ".xdrx".
Definition thirty_one_paths : list string := run_path <$> seq 1 31.

(** A file system on which [os.stat] fails for every path *)
Definition vanished_world : world :=
  {| getlogin := "jon";
     os_stat := fun _ => OSError "[WinError 2] The system cannot find the file specified";
     localtime := noon |}.

(** A file system on which every file is 1,300,000 bytes long *)
Definition small_world : world :=
  {| getlogin := "jon"; os_stat := fun _ => st_size 1300000; localtime := noon |}.

Definition mid_october : date := {| year := 2019; mon := Oct; day := 15 |}.
Definition end_september : date := {| year := 2019; mon := Sep; day := 30 |}.

Definition three_runs : list event :=
  [created_at "C:\Dna\amy\plate1.xdrx";
   created_at "C:\Dna\bob\plate2.xdrx";
   created_at "C:\Dna\amy\plate3.xdrx"].

(** ** The main block: start-up and the hourly month check *)

Definition qiaxcel : string := "\\File01-s0\Team121\Genotyping\QIAxcel\Experiment\Dna".

(** [strftime("%b %Y")] of the day *)
Definition strftime_b_Y (d : date) : string :=
  strftime_b (mon d) +:+ " " +:+ strftime_Y (year d).

(** What the main thread does to its collaborators, in order. A watch is
    identified by the path it observes. *)
Inductive main_effect :=
  | Printed (text : string)       (* print(text) *)
  | Schedule (path : string)      (* observer.schedule(labhandler, path) *)
  | Unschedule (path : string)    (* observer.unschedule(watch) *)
  | Slept (seconds : Z).          (* time.sleep(seconds) *)

(** The variables of the main thread that the loop reads and writes *)
Record main_state := {
  current_month_year : string;
  viia7watch_last : string;
  viia7watch_curr : string
}.

Record main_outcome := {
  main_result : result main_state;
  main_dirs : gset string;
  main_trace : list main_effect
}.

(** Lines 188-200, up to the start of the input thread: both directories
    are resolved, the current month first, then the three watches are
    scheduled. *)
Definition startup (today : date) (dirs : gset string) : main_outcome :=
  let cmy := strftime_b_Y today in
  let r1 := viia7_path today false dirs in
  match returned r1 with
  | Raise e =>
      {| main_result := Raise e; main_dirs := dirs_after r1;
         main_trace := Printed <$> printed r1 |}
  | Return viia7 =>
      let r2 := viia7_path today true (dirs_after r1) in
      match returned r2 with
      | Raise e =>
          {| main_result := Raise e; main_dirs := dirs_after r2;
             main_trace := Printed <$> (printed r1 ++ printed r2)%list |}
      | Return viia7last =>
          {| main_result :=
               Return {| current_month_year := cmy;
                         viia7watch_last := viia7last;
                         viia7watch_curr := viia7 |};
             main_dirs := dirs_after r2;
             main_trace :=
               ((Printed <$> (printed r1 ++ printed r2)) ++
                [Schedule qiaxcel; Schedule viia7last; Schedule viia7;
                 Printed "Running..."; Printed "Enter a command or type help"])%list |}
      end
  end.

(** One turn of the loop of lines 204-212, on the day [today]: the clock is
    read once per turn, for the month text and for [viia7_path] alike *)
Definition month_check (today : date) (st : main_state) (dirs : gset string)
  : main_outcome :=
  if negb (String.eqb (current_month_year st) (strftime_b_Y today)) then
    let cmy := strftime_b_Y today in
    let r := viia7_path today false dirs in
    match returned r with
    | Raise e =>
        {| main_result := Raise e; main_dirs := dirs_after r;
           main_trace :=
             (Printed ("The month has changed to " +:+ cmy) :: (Printed <$> printed r))%list |}
    | Return viia7 =>
        {| main_result :=
             Return {| current_month_year := cmy;
                       viia7watch_last := viia7watch_curr st;
                       viia7watch_curr := viia7 |};
           main_dirs := dirs_after r;
           main_trace :=
             ((Printed ("The month has changed to " +:+ cmy) :: (Printed <$> printed r)) ++
              [Unschedule (viia7watch_last st); Schedule viia7; Slept 3600])%list |}
    end
  else
    {| main_result := Return st; main_dirs := dirs; main_trace := [Slept 3600] |}.

(** The loop over the days on which the main thread wakes up; an exception
    ends it. *)
Fixpoint month_checks (days : list date) (st : main_state) (dirs : gset string)
  : main_outcome :=
  match days with
  | [] => {| main_result := Return st; main_dirs := dirs; main_trace := [] |}
  | today :: rest =>
      let r := month_check today st dirs in
      match main_result r with
      | Raise e => r
      | Return st' =>
          let rs := month_checks rest st' (main_dirs r) in
          {| main_result := main_result rs; main_dirs := main_dirs rs;
             main_trace := (main_trace r ++ main_trace rs)%list |}
      end
  end.

(** ** Further vocabulary and sample inputs *)

(** The character [c] occurs in [s]. *)
Fixpoint occurs (c : ascii) (s : string) : bool :=
  match s with
  | EmptyString => false
  | String a s' => Ascii.eqb a c || occurs c s'
  end.

(** A string without path separators *)
Definition no_separator (s : string) : bool :=
  negb (occurs "\" s) && negb (occurs "/" s).

(** The path is one of the names [build_path] gives a month directory. *)
Definition is_month_path (path : string) : Prop :=
  exists month year : string, path = build_path month year.

Definition unscheduled (t : list main_effect) : list string :=
  omap (fun e => match e with Unschedule p => Some p | _ => None end) t.

Definition scheduled (t : list main_effect) : list string :=
  omap (fun e => match e with Schedule p => Some p | _ => None end) t.

(** A file system on which every file is 1,300,001 bytes long *)
Definition boundary_world : world :=
  {| getlogin := "jon"; os_stat := fun _ => st_size 1300001; localtime := noon |}.

Definition mid_january : date := {| year := 2020; mon := Jan; day := 15 |}.

(** The values a command can give a counter: off, always, or a digit *)
Definition settable (x : Z) : Prop := x = 0 \/ x = 1337 \/ 1 <= x <= 9.

Definition is_print (e : effect) : Prop := exists text, e = Print text.

(** A line that names neither machine, in any letter case *)
Definition names_no_machine (inp : string) : Prop :=
  Py.contains "q" (Py.lower inp) = false /\ Py.contains "v" (Py.lower inp) = false.

(** A line of ASCII text: every character code is below 128 *)
Definition ascii_text (s : string) : Prop :=
  forallb (fun c => (nat_of_ascii c <? 128)%nat) (list_ascii_of_string s) = true.

(** The path is one of the three names [viia7_path] tries for the month of
    [d]: the abbreviated one, the full one, or [Sept] in September *)
Definition candidate (d : date) (p : string) : Prop :=
  p = abbr_path d \/ p = full_path d \/ (mon d = Sep /\ p = sept_path d).

(** * Properties *)

(** Unfolding of the monad of the handler *)
Ltac run_M :=
  unfold print, emit, modify, gets;
  unfold mbind, M_mbind, M_bind, mret, M_mret, M_ret.

Example contains_ex : Py.contains ".eds" "C:\runs\plate7.eds" = true.
Proof. reflexivity. Qed.
Example lower_ex : Py.lower "C:\Runs\Jon\P1.EDS" = "c:\runs\jon\p1.eds".
Proof. reflexivity. Qed.
Example ljust_ex : Py.ljust 6 " " "ab" = "ab    " /\ Py.ljust 1 " " "ab" = "ab".
Proof. split; reflexivity. Qed.
Example split_ex : Py.split "\" "a\b\\c" = ["a"; "b"; ""; "c"].
Proof. reflexivity. Qed.
Example splitext_ex :
  Py.splitext_root "C:\runs.d\plate7.eds" = "C:\runs.d\plate7" /\
  Py.splitext_root "C:\runs.d\plate7" = "C:\runs.d\plate7" /\
  Py.splitext_root "C:\runs\..eds" = "C:\runs\..eds" /\
  Py.splitext_root "C:\runs\.eds" = "C:\runs\.eds".
Proof. repeat split; reflexivity. Qed.
Example str_ex : Py.str 3 = "3" /\ Py.str (-1) = "-1" /\ Py.str 1337 = "1337".
Proof. repeat split; reflexivity. Qed.

Example notif_ex :
  console (trace (notif jon_world (created_at "C:\Dna\amy\plate1.xdrx") 1 initial)) =
  [Style.BRIGHT +:+ "07.03.19 12:05 " +:+ Style.NORMAL +:+
   Fore.GREEN +:+ ">>> " +:+ Fore.MAGENTA +:+ "Qiaxcel" +:+ Style.RESET_ALL +:+ ": " +:+
   Fore.GREEN +:+ "plate1" +:+ Style.RESET_ALL +:+ " has finished!";
   "                   " +:+ Fore.MAGENTA +:+ "Qiaxcel" +:+ Style.RESET_ALL +:+ ":" +:+
   " No longer notifying."].
Proof. reflexivity. Qed.

(** ** Strings *)

Lemma prefix_app (s t : string) : String.prefix s (s +:+ t) = true.
Proof.
  induction s as [|c s IH]; simpl.
  - now destruct t.
  - destruct (ascii_dec c c); [exact IH | congruence].
Qed.

Lemma contains_prefix (sub s : string) :
  String.prefix sub s = true -> Py.contains sub s = true.
Proof. intros H. destruct s; cbn [Py.contains]; rewrite H; reflexivity. Qed.

Lemma contains_app_r (sub pre s : string) :
  Py.contains sub s = true -> Py.contains sub (pre +:+ s) = true.
Proof.
  intros H. induction pre as [|c pre IH]; simpl; [exact H|].
  rewrite IH. apply orb_true_r.
Qed.

Lemma lower_ascii_idemp (c : ascii) :
  Py.lower_ascii (Py.lower_ascii c) = Py.lower_ascii c.
Proof. destruct c as [[] [] [] [] [] [] [] []]; reflexivity. Qed.

Lemma lower_idemp (s : string) : Py.lower (Py.lower s) = Py.lower s.
Proof.
  induction s as [|c s IH]; simpl; [reflexivity|].
  now rewrite lower_ascii_idemp, IH.
Qed.

Lemma lower_app (s t : string) : Py.lower (s +:+ t) = Py.lower s +:+ Py.lower t.
Proof. induction s as [|c s IH]; simpl; [reflexivity | now rewrite IH]. Qed.

(** A prefix of a lowered string is itself in lower case. *)
Lemma prefix_lower_fixed (sub s : string) :
  String.prefix sub (Py.lower s) = true -> Py.lower sub = sub.
Proof.
  revert s. induction sub as [|a sub IH]; intros [|b s]; simpl; try easy.
  destruct (ascii_dec a (Py.lower_ascii b)) as [->|]; [|easy].
  intros H. now rewrite lower_ascii_idemp, (IH s H).
Qed.

Lemma contains_lower_fixed (sub s : string) :
  Py.contains sub (Py.lower s) = true -> Py.lower sub = sub.
Proof.
  induction s as [|b s IH]; simpl.
  - now destruct sub.
  - intros [H|H]%orb_prop; [|auto].
    apply (prefix_lower_fixed sub (String b s) H).
Qed.

(** The test of [notif] on the login name implies the case-insensitive
    occurrence, and coincides with it when the login name is in lower case. *)
Lemma login_test_appears (name path : string) :
  Py.contains name (Py.lower path) = true -> appears_ci name path = true.
Proof.
  intros H. unfold appears_ci. now rewrite (contains_lower_fixed _ _ H).
Qed.

Lemma login_test_lowercase (name path : string) :
  Py.lower name = name ->
  Py.contains name (Py.lower path) = appears_ci name path.
Proof. intros H. unfold appears_ci. now rewrite H. Qed.

(** ** One render *)

Lemma notif_run (w : world) (e : event) (x : Z) (h : LabHandler) :
  notif w e x h =
  (x - 1, set_recent_events (deque_append (recent_events h) (src_path e)) h,
   notif_effects w e x).
Proof.
  unfold notif, notif_effects, record. run_M.
  destruct (get_event_info e) as [machine file].
  destruct (notif_test w (src_path e) x), (x =? 1); reflexivity.
Qed.

Lemma notif_value (w : world) (e : event) (x : Z) (h : LabHandler) :
  value (notif w e x h) = x - 1.
Proof. now rewrite notif_run. Qed.

Lemma notif_handler (w : world) (e : event) (x : Z) (h : LabHandler) :
  handler (notif w e x h) =
  set_recent_events (deque_append (recent_events h) (src_path e)) h.
Proof. now rewrite notif_run. Qed.

Lemma notif_trace (w : world) (e : event) (x : Z) (h : LabHandler) :
  trace (notif w e x h) = notif_effects w e x.
Proof. now rewrite notif_run. Qed.

(** The window flashes and the green line is printed exactly when the test
    of line 53 succeeds; otherwise the plain line is printed. *)
Lemma notif_distinguished (w : world) (e : event) (x : Z) (h : LabHandler) :
  rendered_distinguished w e (trace (notif w e x h)) = notif_test w (src_path e) x.
Proof.
  rewrite notif_trace. unfold rendered_distinguished, notif_effects, first_line_is.
  destruct (get_event_info e) as [machine file]; simpl.
  destruct (notif_test w (src_path e) x), (x =? 1); simpl; try reflexivity.
  all: now rewrite bool_decide_eq_true_2.
Qed.

Lemma notif_normal (w : world) (e : event) (x : Z) (h : LabHandler) :
  rendered_normal w e (trace (notif w e x h)) = negb (notif_test w (src_path e) x).
Proof.
  rewrite notif_trace. unfold rendered_normal, notif_effects, first_line_is.
  destruct (get_event_info e) as [machine file]; simpl.
  destruct (notif_test w (src_path e) x), (x =? 1); simpl; try reflexivity.
  all: now rewrite bool_decide_eq_true_2.
Qed.

Lemma notif_test_absent (w : world) (e : event) (x : Z) :
  login_absent w e -> notif_test w (src_path e) x = (x =? 1) || (9 <? x).
Proof.
  unfold login_absent, notif_test. intros Habs.
  destruct (Py.contains (getlogin w) (Py.lower (src_path e))) eqn:Hc; [|reflexivity].
  apply login_test_appears in Hc. congruence.
Qed.

(** ** The countdown *)

(** C1. For a counter value [n] with [1 < n <= 9], [n] consecutive renders
    of events whose paths do not contain the login name bring the counter to
    exactly 0; the first [n - 1] renders are normal and the [n]-th one is
    distinguished. *)
Theorem countdown_reaches_zero (w : world) (es : list event) (n : Z) (h : LabHandler) :
  1 < n <= 9 ->
  Z.of_nat (length es) = n ->
  Forall (login_absent w) es ->
  let r := render_all w es n h in
  r.1.1 = 0 /\
  zip_with (rendered_normal w) es r.2 = (repeat true (length es - 1) ++ [false])%list /\
  zip_with (rendered_distinguished w) es r.2 = (repeat false (length es - 1) ++ [true])%list.
Proof.
  intros Hn. assert (Hx : 1 <= n <= 9) by lia. clear Hn.
  revert n h Hx.
  induction es as [|e es IH]; intros x h Hx Hlen Habs; simpl in *; [lia|].
  apply Forall_cons in Habs as [Habs1 Habs].
  rewrite notif_value, notif_handler, notif_normal, notif_distinguished.
  rewrite (notif_test_absent w e x Habs1).
  destruct es as [|e' es].
  - (* the last render: the counter is 1 *)
    simpl in *. assert (x = 1) as -> by lia. now simpl.
  - (* an earlier render: the counter is between 2 and 9 *)
    specialize (IH (x - 1) (set_recent_events (deque_append (recent_events h) (src_path e)) h)).
    destruct IH as (IH0 & IHn & IHd); [simpl in *; lia.. | exact Habs |].
    simpl in Hlen.
    replace (x =? 1) with false by (symmetry; apply Z.eqb_neq; lia).
    replace (9 <? x) with false by (symmetry; apply Z.ltb_ge; lia).
    cbn [length Nat.sub repeat app orb negb] in *.
    rewrite Nat.sub_0_r in *.
    now rewrite IH0, IHn, IHd.
Qed.

Lemma countdown_reaches_zero_witness :
  let r := render_all jon_world three_runs 3 initial in
  r.1.1 = 0 /\
  zip_with (rendered_normal jon_world) three_runs r.2 = [true; true; false] /\
  zip_with (rendered_distinguished jon_world) three_runs r.2 = [false; false; true].
Proof.
  apply (countdown_reaches_zero jon_world three_runs 3 initial).
  - lia.
  - reflexivity.
  - repeat (constructor; [reflexivity|]). constructor.
Defined.

(** ** The two callbacks *)

Lemma on_created_skip (w : world) (e : event) (h : LabHandler) :
  Py.contains ".xdrx" (src_path e) && negb (seen (src_path e) h) = false ->
  on_created w e h = (tt, h, []).
Proof. intros H. unfold on_created. run_M. now rewrite H. Qed.

Lemma on_created_notif (w : world) (e : event) (h : LabHandler) :
  Py.contains ".xdrx" (src_path e) && negb (seen (src_path e) h) = true ->
  on_created w e h =
  (tt,
   set_q_cnt (_q_cnt h - 1)
     (set_recent_events (deque_append (recent_events h) (src_path e)) h),
   notif_effects w e (_q_cnt h)).
Proof.
  intros H. unfold on_created. run_M. rewrite H, notif_run.
  now rewrite app_nil_r.
Qed.

Lemma on_modified_skip (w : world) (e : event) (h : LabHandler) :
  Py.contains ".eds" (src_path e) && negb (seen (src_path e) h) = false ->
  on_modified w e h = (tt, h, [Sleep 1]).
Proof. intros H. unfold on_modified. run_M. now rewrite H. Qed.

Lemma on_modified_small (w : world) (e : event) (h : LabHandler) (bytes : Z) :
  Py.contains ".eds" (src_path e) && negb (seen (src_path e) h) = true ->
  os_stat w (src_path e) = st_size bytes ->
  bytes <= size_threshold ->
  on_modified w e h = (tt, h, [Sleep 1]).
Proof.
  intros H Hstat Hle. unfold on_modified, is_large_enough. run_M.
  rewrite H, Hstat.
  now replace (size_threshold <? bytes) with false by (symmetry; apply Z.ltb_ge; lia).
Qed.

Lemma on_modified_large (w : world) (e : event) (h : LabHandler) (bytes : Z) :
  Py.contains ".eds" (src_path e) && negb (seen (src_path e) h) = true ->
  os_stat w (src_path e) = st_size bytes ->
  size_threshold < bytes ->
  on_modified w e h =
  (tt,
   set_v_cnt (_v_cnt h - 1)
     (set_recent_events (deque_append (recent_events h) (src_path e)) h),
   Sleep 1 :: notif_effects w e (_v_cnt h)).
Proof.
  intros H Hstat Hlt. unfold on_modified, is_large_enough. run_M.
  rewrite H, Hstat.
  replace (size_threshold <? bytes) with true by (symmetry; apply Z.ltb_lt; lia).
  rewrite notif_run. simpl. now rewrite app_nil_r.
Qed.

Lemma is_large_enough_error (w : world) (path message : string) (h : LabHandler) :
  os_stat w path = OSError message ->
  is_large_enough w path h =
  (true, h,
   [Print (Fore.RED +:+ " " +:+ message +:+ " " +:+ Style.RESET_ALL);
    Print (bright_time w +:+ Py.ljust 21 " " (" -  " +:+ viia7_str) +:+ file_name path +:+
           " wasn't saved properly!" +:+
           " You'll need to analyse and save the run again from the machine.")]).
Proof. intros Hstat. unfold is_large_enough. run_M. now rewrite Hstat. Qed.

Lemma on_modified_stat_error (w : world) (e : event) (h : LabHandler) (message : string) :
  Py.contains ".eds" (src_path e) && negb (seen (src_path e) h) = true ->
  os_stat w (src_path e) = OSError message ->
  on_modified w e h =
  (tt,
   set_v_cnt (_v_cnt h - 1)
     (set_recent_events (deque_append (recent_events h) (src_path e)) h),
   Sleep 1 :: (trace (is_large_enough w (src_path e) h) ++ notif_effects w e (_v_cnt h))%list).
Proof.
  intros H Hstat. unfold on_modified. run_M.
  rewrite H, (is_large_enough_error w _ message h Hstat), notif_run.
  simpl. now rewrite app_nil_r.
Qed.

Lemma seen_true (path : string) (h : LabHandler) :
  seen path h = true <-> path ∈ recent_events h.
Proof. unfold seen. apply bool_decide_eq_true. Qed.

Lemma seen_false (path : string) (h : LabHandler) :
  seen path h = false <-> path ∉ recent_events h.
Proof. unfold seen. apply bool_decide_eq_false. Qed.

(** ** The ledger *)

Lemma elem_of_deque_append (d : list string) (x : string) :
  x ∈ deque_append d x.
Proof.
  unfold deque_append.
  destruct (maxlen <? length (d ++ [x]))%nat eqn:Hfull; [|set_solver].
  destruct d as [|y d]; [discriminate|].
  simpl. set_solver.
Qed.

Lemma record_seen (w : world) (e : event) (x : Z) (h : LabHandler) :
  seen (src_path e) (handler (notif w e x h)) = true.
Proof. rewrite notif_handler. apply seen_true, elem_of_deque_append. Qed.

(** On a deque within its bound, appending keeps the last [maxlen] entries. *)
Lemma deque_append_drop (d : list string) (x : string) :
  (length d <= maxlen)%nat ->
  deque_append d x = drop (length d + 1 - maxlen) (d ++ [x])%list.
Proof.
  intros Hb. unfold deque_append. rewrite length_app. simpl length.
  destruct (Nat.ltb_spec maxlen (length d + 1)) as [Hlt|Hge].
  - replace (length d + 1 - maxlen)%nat with 1%nat by lia.
    now destruct (d ++ [x])%list.
  - now replace (length d + 1 - maxlen)%nat with 0%nat by lia.
Qed.

Lemma deque_append_length (d : list string) (x : string) :
  (length d <= maxlen)%nat -> (length (deque_append d x) <= maxlen)%nat.
Proof.
  intros Hb. rewrite deque_append_drop by exact Hb.
  rewrite length_drop, length_app. simpl. lia.
Qed.

Lemma foldl_deque_append_drop (ps : list string) :
  forall d : list string,
    (length d <= maxlen)%nat ->
    foldl deque_append d ps = drop (length d + length ps - maxlen) (d ++ ps)%list.
Proof.
  induction ps as [|p ps IH]; intros d Hb; simpl.
  - rewrite app_nil_r. now replace (length d + 0 - maxlen)%nat with 0%nat by lia.
  - rewrite IH by now apply deque_append_length.
    rewrite deque_append_drop by exact Hb.
    rewrite length_drop, length_app. simpl length.
    set (k := (length d + 1 - maxlen)%nat).
    assert (Hk : (k <= length (d ++ [p]))%nat) by (rewrite length_app; simpl; lia).
    rewrite <- (drop_app_le _ ps) by exact Hk.
    rewrite drop_drop, <- app_assoc. simpl.
    f_equal. rewrite length_app in Hk. simpl in Hk. lia.
Qed.

Lemma record_all_handler (paths : list string) :
  forall h : LabHandler,
    record_all paths h =
    (tt, set_recent_events (foldl deque_append (recent_events h) paths) h, []).
Proof.
  induction paths as [|p ps IH]; intros h; simpl.
  - now destruct h.
  - unfold record at 1. run_M. now rewrite IH.
Qed.

Lemma initial_bounded : bounded initial.
Proof. unfold bounded, initial, maxlen. simpl. lia. Qed.

Lemma notif_bounded (w : world) (e : event) (x : Z) (h : LabHandler) :
  bounded h -> bounded (handler (notif w e x h)).
Proof. rewrite notif_handler. apply deque_append_length. Qed.

(** A path stays in the ledger while fewer than [maxlen] paths are recorded
    after it. *)
Lemma recorded_recently_seen (h : LabHandler) (path : string) (later : list string) :
  bounded h ->
  (length later < maxlen)%nat ->
  seen path (handler (record_all (path :: later) h)) = true.
Proof.
  intros Hb Hlater. rewrite record_all_handler. apply seen_true.
  unfold handler, set_recent_events. cbn [fst snd recent_events].
  rewrite foldl_deque_append_drop by exact Hb.
  rewrite drop_app_le by (cbn [length]; lia).
  set_solver.
Qed.

(** C6. Recording 31 distinct paths evicts the first of them, which is no
    longer seen, while the 2nd to the 31st are all seen: they are exactly the
    content of the ledger. *)
Theorem thirty_first_record_evicts_first
    (h : LabHandler) (first : string) (rest : list string) :
  bounded h ->
  length (first :: rest) = 31%nat ->
  NoDup (first :: rest) ->
  let h' := handler (record_all (first :: rest) h) in
  seen first h' = false /\
  (forall p, p ∈ rest -> seen p h' = true) /\
  recent_events h' = rest.
Proof.
  intros Hb Hlen Hnd h'.
  assert (Hrest : recent_events h' = rest).
  { unfold h'. rewrite record_all_handler.
    unfold handler, set_recent_events. cbn [fst snd recent_events].
    rewrite foldl_deque_append_drop by exact Hb.
    rewrite Hlen. unfold bounded, maxlen in *.
    replace (length (recent_events h) + 31 - 30)%nat
      with (length (recent_events h) + 1)%nat by lia.
    rewrite <- drop_drop, drop_app_length. reflexivity. }
  split; [|split; [|exact Hrest]].
  - apply seen_false. rewrite Hrest. now apply NoDup_cons_1_1.
  - intros p Hp. apply seen_true. now rewrite Hrest.
Qed.

Lemma thirty_first_record_evicts_first_witness :
  let h' := handler (record_all thirty_one_paths initial) in
  seen "C:\Dna\run1.xdrx" h' = false /\
  (forall p, p ∈ tail thirty_one_paths -> seen p h' = true) /\
  recent_events h' = tail thirty_one_paths.
Proof.
  apply (thirty_first_record_evicts_first initial
           "C:\Dna\run1.xdrx" (tail thirty_one_paths)).
  - exact initial_bounded.
  - reflexivity.
  - apply (bool_decide_unpack _). vm_compute. exact I.
Defined.

(** ** Duplicates and the size gate *)

(** C5. An event whose path is in the ledger is not notified: [on_created]
    and [on_modified], hence the dispatch of an event of any type, leave the
    ledger and both counters as they were, print nothing and do not flash
    the window. *)
Theorem seen_path_is_not_notified (w : world) (e : event) (h : LabHandler) :
  src_path e ∈ recent_events h ->
  unnoticed (on_created w e h) h /\
  unnoticed (on_modified w e h) h /\
  unnoticed (dispatch w e h) h.
Proof.
  intros Hin%seen_true.
  assert (Hc : on_created w e h = (tt, h, []))
    by (apply on_created_skip; rewrite Hin; apply andb_false_r).
  assert (Hm : on_modified w e h = (tt, h, [Sleep 1]))
    by (apply on_modified_skip; rewrite Hin; apply andb_false_r).
  unfold dispatch. destruct (event_type e); rewrite ?Hc, ?Hm; easy.
Qed.

Lemma seen_path_is_not_notified_witness :
  let e := created_at "C:\Dna\run5.xdrx" in
  let h := handler (record_all (take 30 thirty_one_paths) initial) in
  unnoticed (on_created jon_world e h) h /\
  unnoticed (on_modified jon_world e h) h /\
  unnoticed (dispatch jon_world e h) h.
Proof.
  apply (seen_path_is_not_notified jon_world (created_at "C:\Dna\run5.xdrx")).
  apply (bool_decide_unpack _). vm_compute. exact I.
Defined.

(** In particular an event is not notified when its path was recorded and
    fewer than [maxlen] paths were recorded since. *)
Lemma recently_recorded_is_not_notified
    (w : world) (e : event) (later : list string) (h : LabHandler) :
  bounded h ->
  (length later < maxlen)%nat ->
  let h' := handler (record_all (src_path e :: later) h) in
  unnoticed (dispatch w e h') h'.
Proof.
  intros Hb Hlater h'.
  assert (Hin : src_path e ∈ recent_events h')
    by now apply seen_true, recorded_recently_seen.
  unfold dispatch, unnoticed. destruct (event_type e).
  - rewrite on_created_skip; [easy|].
    apply seen_true in Hin. rewrite Hin. apply andb_false_r.
  - rewrite on_modified_skip; [easy|].
    apply seen_true in Hin. rewrite Hin. apply andb_false_r.
  - easy.
  - easy.
Qed.

(** C10. A modified event on an unseen [.eds] path whose file is not above
    the size threshold is dropped by [on_modified] without a mark: nothing
    is printed, the ledger and both counters stay as they were. A later
    modified event on the same path, once the file is large enough, is
    therefore rendered by [notif]. *)
Theorem small_file_leaves_no_mark (w : world) (e : event) (h : LabHandler) (bytes : Z) :
  Py.contains ".eds" (src_path e) = true ->
  seen (src_path e) h = false ->
  os_stat w (src_path e) = st_size bytes ->
  bytes <= size_threshold ->
  let r := on_modified w e h in
  handler r = h /\
  console (trace r) = [] /\
  flashed (trace r) = false /\
  forall (w' : world) (bytes' : Z),
    os_stat w' (src_path e) = st_size bytes' ->
    size_threshold < bytes' ->
    let r' := on_modified w' e (handler r) in
    trace r' = Sleep 1 :: trace (notif w' e (_v_cnt h) h) /\
    seen (src_path e) (handler r') = true /\
    _v_cnt (handler r') = _v_cnt h - 1 /\
    _q_cnt (handler r') = _q_cnt h.
Proof.
  intros Hext Hseen Hstat Hle r.
  assert (Hfresh : Py.contains ".eds" (src_path e) && negb (seen (src_path e) h) = true)
    by now rewrite Hext, Hseen.
  assert (Hr : r = (tt, h, [Sleep 1]))
    by now apply (on_modified_small w e h bytes).
  rewrite Hr. split; [reflexivity|]. split; [reflexivity|]. split; [reflexivity|].
  intros w' bytes' Hstat' Hgt r'.
  assert (Hr' : r' = (tt,
                      set_v_cnt (_v_cnt h - 1)
                        (set_recent_events (deque_append (recent_events h) (src_path e)) h),
                      Sleep 1 :: notif_effects w' e (_v_cnt h)))
    by now apply (on_modified_large w' e h bytes').
  rewrite Hr', notif_trace. split; [reflexivity|]. split; [|easy].
  apply seen_true, elem_of_deque_append.
Qed.

Lemma small_file_leaves_no_mark_witness :
  let e := modified_at "C:\Viia7\Mar 2019\plate7.eds" in
  let r := on_modified small_world e initial in
  handler r = initial /\
  console (trace r) = [] /\
  flashed (trace r) = false /\
  forall (w' : world) (bytes' : Z),
    os_stat w' (src_path e) = st_size bytes' ->
    size_threshold < bytes' ->
    let r' := on_modified w' e (handler r) in
    trace r' = Sleep 1 :: trace (notif w' e (_v_cnt initial) initial) /\
    seen (src_path e) (handler r') = true /\
    _v_cnt (handler r') = _v_cnt initial - 1 /\
    _q_cnt (handler r') = _q_cnt initial.
Proof.
  apply (small_file_leaves_no_mark small_world
           (modified_at "C:\Viia7\Mar 2019\plate7.eds") initial 1300000).
  - reflexivity.
  - reflexivity.
  - reflexivity.
  - unfold size_threshold. lia.
Defined.

(** C8. When [os.stat] fails, [is_large_enough] answers [True] after two
    lines on the console, the second of which starts with the bright time
    stamp and says that the file was not saved properly; [on_modified], on an
    unseen [.eds] path, then goes on to [notif] as if the file were large
    enough. *)
Theorem stat_failure_warns_and_accepts
    (w : world) (e : event) (message : string) (h : LabHandler) :
  os_stat w (src_path e) = OSError message ->
  let r := is_large_enough w (src_path e) h in
  value r = true /\
  handler r = h /\
  (exists red rest,
      console (trace r) = [red; bright_time w +:+ rest] /\
      Py.contains " wasn't saved properly!" rest = true) /\
  (Py.contains ".eds" (src_path e) = true ->
   seen (src_path e) h = false ->
   let r' := on_modified w e h in
   trace r' = Sleep 1 :: (trace r ++ trace (notif w e (_v_cnt h) h))%list /\
   seen (src_path e) (handler r') = true /\
   _v_cnt (handler r') = _v_cnt h - 1).
Proof.
  intros Hstat r.
  assert (Hr : r = (true, h,
    [Print (Fore.RED +:+ " " +:+ message +:+ " " +:+ Style.RESET_ALL);
     Print (bright_time w +:+ Py.ljust 21 " " (" -  " +:+ viia7_str) +:+
            file_name (src_path e) +:+
            " wasn't saved properly!" +:+
            " You'll need to analyse and save the run again from the machine.")]))
    by now apply is_large_enough_error.
  split; [now rewrite Hr|]. split; [now rewrite Hr|]. split.
  - rewrite Hr. eexists _, _. split; [reflexivity|].
    do 2 apply contains_app_r. apply contains_prefix, prefix_app.
  - intros Hext Hseen r'.
    assert (Hr' : r' = (tt,
       set_v_cnt (_v_cnt h - 1)
         (set_recent_events (deque_append (recent_events h) (src_path e)) h),
       Sleep 1 :: (trace r ++ notif_effects w e (_v_cnt h))%list)).
    { unfold r', r.
      apply (on_modified_stat_error w e h message); [|exact Hstat].
      now rewrite Hext, Hseen. }
    rewrite Hr', notif_trace. split; [reflexivity|]. split; [|reflexivity].
    apply seen_true, elem_of_deque_append.
Qed.

Lemma stat_failure_warns_and_accepts_witness :
  let e := modified_at "C:\Viia7\Mar 2019\plate7.eds" in
  let r := is_large_enough vanished_world (src_path e) initial in
  let r' := on_modified vanished_world e initial in
  value r = true /\
  handler r = initial /\
  trace r' = Sleep 1 :: (trace r ++ trace (notif vanished_world e 0 initial))%list /\
  seen (src_path e) (handler r') = true /\
  _v_cnt (handler r') = -1.
Proof.
  destruct (stat_failure_warns_and_accepts vanished_world
              (modified_at "C:\Viia7\Mar 2019\plate7.eds")
              "[WinError 2] The system cannot find the file specified" initial eq_refl)
    as (Hv & Hh & _ & Hgo).
  exact (conj Hv (conj Hh (Hgo eq_refl eq_refl))).
Defined.

(** ** The counters *)

(** [notify_setting] never falls through to the implicit [None]. *)
Lemma notify_setting_total (machine : string) (x : Z) :
  is_Some (notify_setting machine x).
Proof.
  unfold notify_setting.
  destruct (Z.ltb_spec 0 x), (Z.ltb_spec x 10), (Z.ltb_spec 9 x), (Z.ltb_spec x 1);
    cbn; eauto; lia.
Qed.

Lemma set_counter_run (s : source) (x : Z) (h : LabHandler) :
  set_counter s x h =
  (tt,
   match s with
   | Viia7 => set_v_cnt (if x =? 0 then if 0 <? _v_cnt h then 0 else 1337 else x) h
   | Qiaxcel => set_q_cnt (if x =? 0 then if 0 <? _q_cnt h then 0 else 1337 else x) h
   end,
   []).
Proof.
  destruct s; unfold set_counter, v_cnt_setter, q_cnt_setter, modify;
    now destruct (x =? 0).
Qed.

(** C3. On either counter, [set(0)] applied at 0 gives the sentinel 1337,
    which is above 9, and applied once more gives 0 again; [set(0)] sends
    every value above 0 to 0 and every value at or below 0 to the sentinel;
    [set(n)] for a digit [n] from 1 to 9 gives exactly [n]. *)
Theorem set_zero_toggles (s : source) (h : LabHandler) (n : Z) :
  1 <= n <= 9 ->
  let set x h := handler (set_counter s x h) in
  (counter s h = 0 ->
   counter s (set 0 h) = 1337 /\ 9 < counter s (set 0 h) /\
   counter s (set 0 (set 0 h)) = 0) /\
  (0 < counter s h -> counter s (set 0 h) = 0) /\
  (counter s h <= 0 -> counter s (set 0 h) = 1337) /\
  counter s (set n h) = n.
Proof.
  intros Hn set. unfold set. rewrite !set_counter_run.
  destruct s; cbn [handler fst snd counter set_v_cnt set_q_cnt _v_cnt _q_cnt].
  all: replace (n =? 0) with false by (symmetry; apply Z.eqb_neq; lia).
  all: change (0 =? 0) with true; cbv iota.
  all: match goal with
       | |- context [0 <? ?x] => destruct (Z.ltb_spec 0 x)
       end.
  all: change (0 <? 0) with false; change (0 <? 1337) with true; cbv iota.
  all: repeat split; intros; lia.
Qed.

Lemma set_zero_toggles_witness :
  counter Qiaxcel (handler (set_counter Qiaxcel 0 initial)) = 1337 /\
  counter Qiaxcel
    (handler (set_counter Qiaxcel 0 (handler (set_counter Qiaxcel 0 initial)))) = 0 /\
  counter Qiaxcel (handler (set_counter Qiaxcel 3 initial)) = 3.
Proof.
  destruct (set_zero_toggles Qiaxcel initial 3) as (Hzero & _ & _ & Hset); [lia|].
  destruct (Hzero eq_refl) as (Hon & _ & Hoff).
  exact (conj Hon (conj Hoff Hset)).
Defined.

(** ** Commands *)




Lemma command_run (inp : string) (h : LabHandler) :
  String.eqb inp "help" = false ->
  let hq := if Py.contains "q" (Py.lower inp)
            then handler (set_counter Qiaxcel (first_digit inp) h) else h in
  let hv := if Py.contains "v" (Py.lower inp)
            then handler (set_counter Viia7 (first_digit inp) hq) else hq in
  command inp h =
  (tt, hv,
   (if Py.contains "q" (Py.lower inp)
    then [Print (str_or_None (notify_setting qiaxcel_str (_q_cnt hq)))] else []) ++
   (if Py.contains "v" (Py.lower inp)
    then [Print (str_or_None (notify_setting viia7_str (_v_cnt hv)))] else []))%list.
Proof.
  intros Hhelp. unfold command, q_cnt, v_cnt. rewrite Hhelp.
  destruct (Py.contains "q" (Py.lower inp)), (Py.contains "v" (Py.lower inp));
    cbv zeta; rewrite ?set_counter_run; unfold set_counter; run_M;
    unfold v_cnt_setter, q_cnt_setter, modify;
    destruct (first_digit inp =? 0); reflexivity.
Qed.



(** ** Month directories *)

Example viia7_path_ex :
  let sept := "\\File01-s0\Team121\Genotyping\qPCR 2019\Experiments\Sept 2019" in
  let oct := "\\File01-s0\Team121\Genotyping\qPCR 2019\Experiments\Oct 2019" in
  returned (viia7_path mid_october true {[ sept ]}) = Return sept /\
  returned (viia7_path mid_october true ∅) = Raise FileNotFoundError /\
  returned (viia7_path mid_october false {[ sept ]}) = Return oct /\
  bool_decide (dirs_after (viia7_path mid_october false {[ sept ]}) = {[ sept; oct ]}) = true /\
  returned (viia7_path {| year := 1; mon := Jan; day := 9 |} true ∅) = Raise OverflowError.
Proof. vm_compute. repeat split. Qed.

Lemma month_is_Sep (m : month) :
  String.eqb (strftime_b m) "Sep" = match m with Sep => true | _ => false end.
Proof. now destruct m. Qed.

Lemma viia7_path_run (today : date) (last : bool) (dirs : gset string) (d : date) :
  resolved_date today last = Return d ->
  viia7_path today last dirs =
  if isdir dirs (abbr_path d) then
    {| returned := Return (abbr_path d); dirs_after := dirs; printed := [] |}
  else if isdir dirs (full_path d) then
    {| returned := Return (full_path d); dirs_after := dirs; printed := [] |}
  else if match mon d with Sep => true | _ => false end && isdir dirs (sept_path d) then
    {| returned := Return (sept_path d); dirs_after := dirs; printed := [] |}
  else if last then
    {| returned := Raise FileNotFoundError; dirs_after := dirs;
       printed := ["Cant find last month's Viia7 Path"] |}
  else
    {| returned := Return (abbr_path d); dirs_after := os_makedirs (abbr_path d) dirs;
       printed := [] |}.
Proof.
  intros Hd. unfold viia7_path.
  change (if last then minus_one_day (replace_day_1 today) else Return today)
    with (resolved_date today last).
  rewrite Hd. cbv zeta. rewrite month_is_Sep.
  fold (abbr_path d) (full_path d) (sept_path d).
  now destruct last.
Qed.

(** The date resolved for the previous month lies in the month before
    today's, in the year before when today is in January. *)
Lemma resolved_previous_month (today d : date) :
  resolved_date today true = Return d ->
  mon d = pred_month (mon today) /\
  year d = (match mon today with Jan => year today - 1 | _ => year today end).
Proof.
  unfold resolved_date, minus_one_day, replace_day_1. cbn [day mon year].
  change (1 <? 1) with false. cbv iota.
  destruct (mon today); try (intros [= <-]; split; reflexivity).
  destruct (MINYEAR <? year today); [|discriminate].
  intros [= <-]. split; reflexivity.
Qed.

(** C9. [viia7_path] tries the abbreviated month name, then the full one,
    then, in September only, [Sept], and returns the first that is a
    directory without touching the file system. When none is one, resolving
    the previous month prints a message and raises [FileNotFoundError],
    creating nothing, while resolving the current month creates the
    directory of the abbreviated name and returns it. Resolving the
    previous month never changes the set of directories. *)
Theorem month_directory_resolution
    (today : date) (last : bool) (dirs : gset string) (d : date) :
  resolved_date today last = Return d ->
  let r := viia7_path today last dirs in
  (isdir dirs (abbr_path d) = true ->
   returned r = Return (abbr_path d) /\ dirs_after r = dirs) /\
  (isdir dirs (abbr_path d) = false -> isdir dirs (full_path d) = true ->
   returned r = Return (full_path d) /\ dirs_after r = dirs) /\
  (isdir dirs (abbr_path d) = false -> isdir dirs (full_path d) = false ->
   mon d = Sep -> isdir dirs (sept_path d) = true ->
   returned r = Return (sept_path d) /\ dirs_after r = dirs) /\
  (last = true -> dirs_after r = dirs) /\
  (isdir dirs (abbr_path d) = false -> isdir dirs (full_path d) = false ->
   (mon d = Sep -> isdir dirs (sept_path d) = false) ->
   (last = true ->
    returned r = Raise FileNotFoundError /\
    printed r = ["Cant find last month's Viia7 Path"] /\
    dirs_after r = dirs) /\
   (last = false ->
    returned r = Return (abbr_path d) /\
    printed r = [] /\
    dirs_after r = {[ abbr_path d ]} ∪ dirs /\
    isdir (dirs_after r) (abbr_path d) = true)).
Proof.
  intros Hd r. unfold r. rewrite (viia7_path_run today last dirs d Hd).
  repeat apply conj.
  - now intros ->.
  - now intros -> ->.
  - now intros -> -> -> ->.
  - intros ->.
    destruct (isdir dirs (abbr_path d)), (isdir dirs (full_path d)); try reflexivity.
    now destruct (match mon d with Sep => true | _ => false end && isdir dirs (sept_path d)).
  - intros -> -> Hsept.
    assert (match mon d with Sep => true | _ => false end && isdir dirs (sept_path d) = false)
      as -> by (destruct (mon d); try reflexivity; now apply Hsept).
    split; intros ->; [easy|].
    repeat split. cbn [dirs_after]. unfold isdir, os_makedirs.
    apply bool_decide_eq_true. set_solver.
Qed.

Lemma month_directory_resolution_witness :
  let r := viia7_path mid_october true ∅ in
  returned r = Raise FileNotFoundError /\
  printed r = ["Cant find last month's Viia7 Path"] /\
  dirs_after r = ∅.
Proof.
  destruct (month_directory_resolution mid_october true ∅ end_september eq_refl)
    as (_ & _ & _ & _ & Hnone).
  destruct (Hnone eq_refl eq_refl (fun _ => eq_refl)) as [Hlast _].
  exact (Hlast eq_refl).
Defined.

(** ** The login name *)

(** With a login name in lower case the render is distinguished exactly when
    the name occurs in the path in any letter case, or the counter is 1, or
    it is above 9. *)
Lemma distinguished_iff_lowercase_login
    (w : world) (e : event) (x : Z) (h : LabHandler) :
  Py.lower (getlogin w) = getlogin w ->
  rendered_distinguished w e (trace (notif w e x h)) = true <->
  appears_ci (getlogin w) (src_path e) = true \/ x = 1 \/ 9 < x.
Proof.
  intros Hlow. rewrite notif_distinguished. unfold notif_test.
  rewrite (login_test_lowercase _ _ Hlow), !orb_true_iff, Z.eqb_eq, Z.ltb_lt.
  tauto.
Qed.

(** Whatever the login name, a render is normal or distinguished, never
    both, and a distinguished one has one of the three reasons. *)
Lemma normal_or_distinguished (w : world) (e : event) (x : Z) (h : LabHandler) :
  rendered_normal w e (trace (notif w e x h)) =
  negb (rendered_distinguished w e (trace (notif w e x h))).
Proof. now rewrite notif_normal, notif_distinguished. Qed.

Lemma distinguished_has_reason (w : world) (e : event) (x : Z) (h : LabHandler) :
  rendered_distinguished w e (trace (notif w e x h)) = true ->
  appears_ci (getlogin w) (src_path e) = true \/ x = 1 \/ 9 < x.
Proof.
  rewrite notif_distinguished. unfold notif_test.
  rewrite !orb_true_iff, Z.eqb_eq, Z.ltb_lt.
  intros [[H|H]|H]; auto using login_test_appears.
Qed.

(** C2, at the input where it fails. The login name [Jon] occurs in the path
    [C:\Dna\Jon\plate1.xdrx], in this very letter case; with the counter at
    0 the render is nevertheless normal: [notif] lowers the path but not the
    login name. *)
Theorem uppercase_login_is_not_matched :
  let e := created_at "C:\Dna\Jon\plate1.xdrx" in
  Py.contains (getlogin Jon_world) (src_path e) = true /\
  appears_ci (getlogin Jon_world) (src_path e) = true /\
  rendered_distinguished Jon_world e (trace (notif Jon_world e 0 initial)) = false /\
  rendered_normal Jon_world e (trace (notif Jon_world e 0 initial)) = true.
Proof. vm_compute. repeat split. Qed.

(** C4 fails as stated: the login name [jon] is in the path, the render is
    distinguished, and the counter that was at 0 is returned as -1. *)
Lemma login_render_at_zero_goes_negative :
  let e := created_at "C:\Dna\jon\plate1.xdrx" in
  Py.contains (getlogin jon_world) (src_path e) = true /\
  rendered_distinguished jon_world e (trace (notif jon_world e 0 initial)) = true /\
  ~ (0 <= value (notif jon_world e 0 initial)).
Proof.
  cbv zeta. split; [reflexivity|]. split; [reflexivity|].
  rewrite notif_value. lia.
Qed.

(** C4, amended. When the login name is in lower case and occurs in the
    path in any letter case, the render is distinguished whatever the
    counter is, and the counter is decremented like in any other render: at
    0 it becomes -1. No floor is enforced: from a counter at or below 0 the
    returned counter is negative, and [notify_setting] still reads it as
    [Notify OFF]. *)
Theorem login_render_distinguished_and_decrements
    (w : world) (e : event) (x : Z) (h : LabHandler) :
  Py.lower (getlogin w) = getlogin w ->
  appears_ci (getlogin w) (src_path e) = true ->
  rendered_distinguished w e (trace (notif w e x h)) = true /\
  value (notif w e x h) = x - 1 /\
  (x = 0 -> value (notif w e x h) = -1) /\
  (x <= 0 ->
   value (notif w e x h) < 0 /\
   forall machine : string,
     notify_setting machine (value (notif w e x h)) =
     Some (Py.ljust 19 " " "" +:+ machine +:+ " Notify OFF")).
Proof.
  intros Hlow Hin. rewrite notif_value.
  split; [apply distinguished_iff_lowercase_login; auto|].
  split; [reflexivity|]. split; [lia|].
  intros Hx. split; [lia|]. intros machine. unfold notify_setting.
  replace (0 <? x - 1) with false by (symmetry; apply Z.ltb_ge; lia).
  replace (9 <? x - 1) with false by (symmetry; apply Z.ltb_ge; lia).
  replace (x - 1 <? 1) with true by (symmetry; apply Z.ltb_lt; lia).
  reflexivity.
Qed.

Lemma login_render_distinguished_and_decrements_witness :
  let e := created_at "C:\Dna\JON\plate1.xdrx" in
  rendered_distinguished jon_world e (trace (notif jon_world e 0 initial)) = true /\
  value (notif jon_world e 0 initial) = -1 /\
  notify_setting qiaxcel_str (value (notif jon_world e 0 initial)) =
  Some (Py.ljust 19 " " "" +:+ qiaxcel_str +:+ " Notify OFF").
Proof.
  destruct (login_render_distinguished_and_decrements
              jon_world (created_at "C:\Dna\JON\plate1.xdrx") 0 initial eq_refl eq_refl)
    as (Hd & _ & Hz & Hoff).
  destruct Hoff as [_ Hoff]; [lia|].
  exact (conj Hd (conj (Hz eq_refl) (Hoff qiaxcel_str))).
Defined.

(** ** The countdown through the callback *)

Lemma elem_of_deque_append_inv (d : list string) (x p : string) :
  p ∈ deque_append d x -> p = x \/ p ∈ d.
Proof.
  unfold deque_append.
  destruct (maxlen <? length (d ++ [x]))%nat.
  - destruct d as [|y d]; simpl; [now intros ?%elem_of_nil|].
    intros [Hin|Hin%list_elem_of_singleton]%elem_of_app; auto.
    right. apply elem_of_cons. now right.
  - intros [Hin|Hin%list_elem_of_singleton]%elem_of_app; auto.
Qed.

(** Fresh Qiaxcel runs with distinct paths, as many as the counter says,
    bring [_q_cnt] to 0 through [on_created]; the last of them flashes the
    window and [_v_cnt] is not touched. *)
Lemma created_countdown (w : world) (es : list event) :
  forall h : LabHandler,
    1 <= _q_cnt h <= 9 ->
    Z.of_nat (length es) = _q_cnt h ->
    Forall (qiaxcel_run w) es ->
    NoDup (src_path <$> es) ->
    Forall (fun e => src_path e ∉ recent_events h) es ->
    let r := on_created_all w es h in
    _q_cnt (handler r) = 0 /\
    _v_cnt (handler r) = _v_cnt h /\
    flashed (trace r) = true.
Proof.
  induction es as [|e es IH]; intros h Hq Hlen Hruns Hnd Hfresh; simpl in Hlen; [lia|].
  apply Forall_cons in Hruns as [(Hext & Habs) Hruns].
  apply Forall_cons in Hfresh as [Hnew Hfresh].
  rewrite fmap_cons in Hnd. apply NoDup_cons in Hnd as [Hhd Hnd].
  assert (He : on_created w e h =
    (tt, set_q_cnt (_q_cnt h - 1)
           (set_recent_events (deque_append (recent_events h) (src_path e)) h),
     notif_effects w e (_q_cnt h))).
  { apply on_created_notif.
    rewrite Hext. apply seen_false in Hnew. now rewrite Hnew. }
  cbn [on_created_all]. unfold mbind, M_mbind, M_bind. rewrite He.
  set (h1 := set_q_cnt _ _).
  destruct es as [|e' es].
  - cbn [on_created_all]. unfold mret, M_mret, M_ret. cbn [handler trace fst snd].
    simpl in Hlen. assert (Hone : _q_cnt h = 1) by lia.
    unfold h1. cbn [_q_cnt _v_cnt set_q_cnt set_recent_events].
    split; [lia|]. split; [reflexivity|].
    rewrite app_nil_r. unfold notif_effects.
    destruct (get_event_info e) as [machine file].
    rewrite (notif_test_absent w e _ Habs), Hone. reflexivity.
  - destruct (IH h1) as (IHq & IHv & IHf).
    + unfold h1. cbn [_q_cnt set_q_cnt]. simpl in Hlen. lia.
    + unfold h1. cbn [_q_cnt set_q_cnt]. simpl in Hlen |- *. lia.
    + exact Hruns.
    + exact Hnd.
    + unfold h1. cbn [recent_events set_q_cnt set_recent_events].
      apply Forall_forall. intros e2 He2 Hin2.
      apply elem_of_deque_append_inv in Hin2 as [Heq|Hold].
      * apply Hhd. rewrite <- Heq. now apply list_elem_of_fmap_2.
      * rewrite Forall_forall in Hfresh. exact (Hfresh e2 He2 Hold).
    + destruct (on_created_all w (e' :: es) h1) as [[u h2] t2] eqn:Hrest.
      cbn [handler trace fst snd] in *.
      split; [exact IHq|]. split; [exact IHv|].
      unfold flashed in *. rewrite existsb_app, IHf. apply orb_true_r.
Qed.

(** * Further properties of the code *)

(** ** Regimes of a counter under renders *)

Lemma render_all_value (w : world) (es : list event) :
  forall (x : Z) (h : LabHandler),
    (render_all w es x h).1.1 = x - Z.of_nat (length es).
Proof.
  induction es as [|e es IH]; intros x h; simpl; [lia|].
  rewrite IH, notif_value. lia.
Qed.

Lemma notif_test_above_9 (w : world) (path : string) (x : Z) :
  9 < x -> notif_test w path x = true.
Proof.
  intros Hx. unfold notif_test.
  replace (9 <? x) with true by (symmetry; apply Z.ltb_lt; lia).
  apply orb_true_r.
Qed.

Lemma notif_test_off (w : world) (e : event) (x : Z) :
  login_absent w e -> x <= 0 -> notif_test w (src_path e) x = false.
Proof.
  intros Habs Hx. rewrite (notif_test_absent w e x Habs).
  replace (x =? 1) with false by (symmetry; apply Z.eqb_neq; lia).
  replace (9 <? x) with false by (symmetry; apply Z.ltb_ge; lia).
  reflexivity.
Qed.

Lemma render_all_above_9 (w : world) (es : list event) :
  forall (x : Z) (h : LabHandler),
    9 <= x - Z.of_nat (length es) ->
    zip_with (rendered_distinguished w) es (render_all w es x h).2 =
    repeat true (length es).
Proof.
  induction es as [|e es IH]; intros x h Hx; simpl in *; [reflexivity|].
  rewrite notif_distinguished, notif_test_above_9 by lia.
  rewrite notif_value, IH by lia. reflexivity.
Qed.

Lemma render_all_off (w : world) (es : list event) :
  forall (x : Z) (h : LabHandler),
    x <= 0 ->
    Forall (login_absent w) es ->
    zip_with (rendered_normal w) es (render_all w es x h).2 = repeat true (length es).
Proof.
  induction es as [|e es IH]; intros x h Hx Habs; simpl in *; [reflexivity|].
  apply Forall_cons in Habs as [Habs1 Habs].
  rewrite notif_normal, notif_test_off by assumption.
  rewrite notif_value, IH by (assumption || lia). reflexivity.
Qed.

(** X1. The always mode wears off. From a counter [x] above 9, the next
    [x - 9] renders are all distinguished, whatever the paths; they leave
    the counter at 9, where the status reads [Notifying in 9 runs time] and
    a render of a path without the login name is normal again. *)
Theorem always_mode_wears_off
    (w : world) (es : list event) (x : Z) (h : LabHandler) :
  9 < x ->
  Z.of_nat (length es) = x - 9 ->
  let r := render_all w es x h in
  zip_with (rendered_distinguished w) es r.2 = repeat true (length es) /\
  r.1.1 = 9 /\
  (forall machine : string,
      notify_setting machine r.1.1 =
      Some (Py.ljust 19 " " "" +:+ machine +:+ " Notifying in 9 runs time")) /\
  (forall e : event,
      login_absent w e ->
      rendered_normal w e (trace (notif w e r.1.1 r.1.2)) = true).
Proof.
  intros Hx Hlen r.
  assert (Hval : r.1.1 = 9) by (unfold r; rewrite render_all_value; lia).
  split; [apply render_all_above_9; lia|].
  split; [exact Hval|]. split.
  - intros machine. now rewrite Hval.
  - intros e Habs. rewrite notif_normal, Hval, (notif_test_absent w e 9 Habs).
    reflexivity.
Qed.

Lemma always_mode_wears_off_witness :
  let r := render_all Jon_world three_runs 12 initial in
  zip_with (rendered_distinguished Jon_world) three_runs r.2 = [true; true; true] /\
  r.1.1 = 9.
Proof.
  destruct (always_mode_wears_off Jon_world three_runs 12 initial) as (Hd & Hv & _).
  - lia.
  - reflexivity.
  - exact (conj Hd Hv).
Defined.

(** X2. Off stays off. From a counter at or below 0, any number of renders
    of paths without the login name are all normal; each still decrements
    the counter, which only moves further below 0, and the status keeps
    reading [Notify OFF]. *)
Theorem off_stays_off
    (w : world) (es : list event) (x : Z) (h : LabHandler) :
  x <= 0 ->
  Forall (login_absent w) es ->
  let r := render_all w es x h in
  zip_with (rendered_normal w) es r.2 = repeat true (length es) /\
  r.1.1 = x - Z.of_nat (length es) /\
  (forall machine : string,
      notify_setting machine r.1.1 =
      Some (Py.ljust 19 " " "" +:+ machine +:+ " Notify OFF")).
Proof.
  intros Hx Habs r.
  assert (Hval : r.1.1 = x - Z.of_nat (length es))
    by (unfold r; apply render_all_value).
  split; [now apply render_all_off|]. split; [exact Hval|].
  intros machine. unfold notify_setting. rewrite Hval.
  replace (0 <? x - Z.of_nat (length es)) with false by (symmetry; apply Z.ltb_ge; lia).
  replace (9 <? x - Z.of_nat (length es)) with false by (symmetry; apply Z.ltb_ge; lia).
  replace (x - Z.of_nat (length es) <? 1) with true by (symmetry; apply Z.ltb_lt; lia).
  reflexivity.
Qed.

Lemma off_stays_off_witness :
  let r := render_all jon_world three_runs 0 initial in
  zip_with (rendered_normal jon_world) three_runs r.2 = [true; true; true] /\
  r.1.1 = -3.
Proof.
  destruct (off_stays_off jon_world three_runs 0 initial) as (Hn & Hv & _).
  - lia.
  - repeat (constructor; [reflexivity|]). constructor.
  - exact (conj Hn Hv).
Defined.

(** X3. Every render prints one line that starts with the bright time
    stamp. The line [No longer notifying.] follows it exactly when the
    counter was 1, and the status after that render is [Notify OFF]. *)
Theorem render_announces_last_countdown
    (w : world) (e : event) (x : Z) (h : LabHandler) :
  let r := notif w e x h in
  let machine := (get_event_info e).1 in
  (exists message rest,
      console (trace r) = (bright_time w +:+ message) :: rest /\
      (x = 1 ->
       rest = [Py.ljust 19 " " "" +:+ machine +:+ " No longer notifying."]) /\
      (x <> 1 -> rest = [])) /\
  (x = 1 ->
   notify_setting machine (value r) =
   Some (Py.ljust 19 " " "" +:+ machine +:+ " Notify OFF")).
Proof.
  intros r machine. unfold r, machine.
  rewrite notif_trace, notif_value. unfold notif_effects.
  destruct (get_event_info e) as [m f]. cbn [fst].
  split.
  - destruct (notif_test w (src_path e) x);
      destruct (Z.eqb_spec x 1) as [->|Hne]; cbn;
      eexists _, _; (split; [reflexivity|]); split; intros; congruence.
  - now intros ->.
Qed.

(** X4. The status text and the renderer agree on the regimes. For every
    counter value [notify_setting] returns a text (it never falls through):
    at or below 0 it is [Notify OFF] and a render of a path without the
    login name is normal; from 1 to 9 it is [Notifying in x runs time] and
    that render is distinguished only at 1; above 9 it is
    [Notifying for all runs] and the render is distinguished. *)
Theorem status_agrees_with_render
    (w : world) (e : event) (x : Z) (h : LabHandler) (machine : string) :
  login_absent w e ->
  let pad := Py.ljust 19 " " "" in
  let d := rendered_distinguished w e (trace (notif w e x h)) in
  is_Some (notify_setting machine x) /\
  (x <= 0 ->
   notify_setting machine x = Some (pad +:+ machine +:+ " Notify OFF") /\ d = false) /\
  (1 <= x <= 9 ->
   notify_setting machine x =
   Some (pad +:+ machine +:+ " Notifying in " +:+ Py.str x +:+ " runs time") /\
   (d = true <-> x = 1)) /\
  (9 < x ->
   notify_setting machine x = Some (pad +:+ machine +:+ " Notifying for all runs") /\
   d = true).
Proof.
  intros Habs pad d. unfold d.
  rewrite notif_distinguished, (notif_test_absent w e x Habs).
  split; [apply notify_setting_total|].
  unfold notify_setting. fold pad.
  destruct (Z.ltb_spec 0 x), (Z.ltb_spec x 10), (Z.ltb_spec 9 x), (Z.ltb_spec x 1),
    (Z.eqb_spec x 1); cbn; repeat split; intros; try lia; try congruence.
Qed.

Lemma status_agrees_with_render_witness :
  notify_setting qiaxcel_str 1 =
    Some (Py.ljust 19 " " "" +:+ qiaxcel_str +:+ " Notifying in 1 runs time") /\
  rendered_distinguished jon_world (created_at "C:\Dna\amy\plate1.xdrx")
    (trace (notif jon_world (created_at "C:\Dna\amy\plate1.xdrx") 1 initial)) = true.
Proof.
  destruct (status_agrees_with_render jon_world (created_at "C:\Dna\amy\plate1.xdrx")
              1 initial qiaxcel_str eq_refl) as (_ & _ & Hcount & _).
  destruct Hcount as [Hs Hd]; [lia|].
  exact (conj Hs (proj2 Hd eq_refl)).
Defined.

(** ** The ledger under renders *)

Lemma render_all_handler (w : world) (es : list event) :
  forall (x : Z) (h : LabHandler),
    (render_all w es x h).1.2 =
    set_recent_events (foldl deque_append (recent_events h) (src_path <$> es)) h.
Proof.
  induction es as [|e es IH]; intros x h; simpl.
  - now destruct h.
  - rewrite IH, notif_handler. reflexivity.
Qed.

(** X5. Renders keep the ledger a sliding window. After any number of
    renders the ledger holds, oldest first, the last [maxlen] entries of its
    former content followed by the rendered paths (duplicates included), it
    is within its bound again, and the counters of the handler itself are
    not written by [notif]. *)
Theorem ledger_is_sliding_window
    (w : world) (es : list event) (x : Z) (h : LabHandler) :
  bounded h ->
  let h' := (render_all w es x h).1.2 in
  let all := (recent_events h ++ (src_path <$> es))%list in
  recent_events h' = drop (length all - maxlen) all /\
  bounded h' /\
  _q_cnt h' = _q_cnt h /\ _v_cnt h' = _v_cnt h.
Proof.
  intros Hb h' all. unfold h'. rewrite render_all_handler.
  cbn [recent_events set_recent_events _q_cnt _v_cnt].
  rewrite foldl_deque_append_drop by exact Hb.
  unfold all. rewrite length_app.
  split; [reflexivity|]. split; [|split; reflexivity].
  unfold bounded in *. cbn [recent_events set_recent_events].
  rewrite length_drop, length_app. lia.
Qed.

Lemma ledger_is_sliding_window_witness :
  recent_events (render_all jon_world three_runs 3 initial).1.2 =
  ["g"; "h"; "i"; "C:\Dna\amy\plate1.xdrx"; "C:\Dna\bob\plate2.xdrx";
   "C:\Dna\amy\plate3.xdrx"].
Proof.
  exact (proj1 (ledger_is_sliding_window jon_world three_runs 3 initial initial_bounded)).
Defined.

(** ** What the callbacks notify *)

Lemma unnoticed_skip (h : LabHandler) (t : list effect) :
  console t = [] -> flashed t = false -> unnoticed (tt, h, t) h.
Proof. intros Hc Hf. now repeat split. Qed.

(** X6. A duplicate is silent. Whatever [on_created] did with an event, a
    second created event on the same path leaves no mark; the same holds for
    [on_modified] when the file is as it was at the first event. *)
Theorem duplicate_event_is_silent (w w' : world) (e : event) (h : LabHandler) :
  unnoticed (on_created w' e (handler (on_created w e h))) (handler (on_created w e h)) /\
  unnoticed (on_modified w e (handler (on_modified w e h))) (handler (on_modified w e h)).
Proof.
  split.
  - destruct (Py.contains ".xdrx" (src_path e) && negb (seen (src_path e) h)) eqn:Hfresh.
    + rewrite (on_created_notif w e h Hfresh). cbn [handler fst snd].
      rewrite on_created_skip; [now apply unnoticed_skip|].
      rewrite (proj2 (seen_true _ _)); [apply andb_false_r|].
      cbn [recent_events set_q_cnt set_recent_events]. apply elem_of_deque_append.
    + rewrite (on_created_skip w e h Hfresh). cbn [handler fst snd].
      rewrite (on_created_skip w' e h Hfresh). now apply unnoticed_skip.
  - destruct (Py.contains ".eds" (src_path e) && negb (seen (src_path e) h)) eqn:Hfresh.
    + assert (Hrec : forall x,
          on_modified w e
            (set_v_cnt x (set_recent_events (deque_append (recent_events h) (src_path e)) h)) =
          (tt, set_v_cnt x (set_recent_events (deque_append (recent_events h) (src_path e)) h),
           [Sleep 1])).
      { intros x. apply on_modified_skip.
        rewrite (proj2 (seen_true _ _)); [apply andb_false_r|].
        cbn [recent_events set_v_cnt set_recent_events]. apply elem_of_deque_append. }
      destruct (os_stat w (src_path e)) as [bytes|message] eqn:Hstat.
      * destruct (Z.ltb_spec size_threshold bytes) as [Hlarge|Hsmall].
        -- rewrite (on_modified_large w e h bytes Hfresh Hstat Hlarge).
           cbn [handler fst snd]. rewrite Hrec. now apply unnoticed_skip.
        -- rewrite (on_modified_small w e h bytes Hfresh Hstat Hsmall).
           cbn [handler fst snd].
           rewrite (on_modified_small w e h bytes Hfresh Hstat Hsmall).
           now apply unnoticed_skip.
      * rewrite (on_modified_stat_error w e h message Hfresh Hstat).
        cbn [handler fst snd]. rewrite Hrec. now apply unnoticed_skip.
    + rewrite (on_modified_skip w e h Hfresh). cbn [handler fst snd].
      rewrite (on_modified_skip w e h Hfresh). now apply unnoticed_skip.
Qed.

(** X7. Only two kinds of event are ever notified: a created event on a
    path that contains [.xdrx] and a modified event on a path that contains
    [.eds]. Any other event, such as a created [.eds] file, a modified
    [.xdrx] file or a move or deletion of either, leaves no mark. *)
Theorem other_events_are_dropped (w : world) (e : event) (h : LabHandler) :
  ~ (event_type e = created /\ Py.contains ".xdrx" (src_path e) = true) ->
  ~ (event_type e = modified /\ Py.contains ".eds" (src_path e) = true) ->
  unnoticed (dispatch w e h) h.
Proof.
  intros Hc Hm. unfold dispatch. destruct (event_type e) eqn:Hty.
  - rewrite on_created_skip; [now apply unnoticed_skip|].
    destruct (Py.contains ".xdrx" (src_path e)); [|reflexivity].
    exfalso. now apply Hc.
  - rewrite on_modified_skip; [now apply unnoticed_skip|].
    destruct (Py.contains ".eds" (src_path e)); [|reflexivity].
    exfalso. now apply Hm.
  - now apply unnoticed_skip.
  - now apply unnoticed_skip.
Qed.

Lemma other_events_are_dropped_witness :
  unnoticed (dispatch jon_world (created_at "C:\Viia7\Mar 2019\plate7.eds") initial) initial.
Proof.
  apply (other_events_are_dropped jon_world
           (created_at "C:\Viia7\Mar 2019\plate7.eds") initial).
  - intros [_ H]. discriminate H.
  - intros [H _]. discriminate H.
Defined.

(** X8. When [on_modified] notifies. For a path not in the ledger, the path
    is recorded, and [_v_cnt] decremented by one, exactly when the path
    contains [.eds] and [os.stat] either fails or reports more than
    1,300,000 bytes; in every other case the call leaves no mark. A file of
    exactly 1,300,000 bytes is not notified, one of 1,300,001 bytes is. *)
Theorem on_modified_notifies_iff (w : world) (e : event) (h : LabHandler) :
  seen (src_path e) h = false ->
  let r := on_modified w e h in
  let accepted :=
    Py.contains ".eds" (src_path e) = true /\
    (forall bytes, os_stat w (src_path e) = st_size bytes -> size_threshold < bytes) in
  (accepted ->
   seen (src_path e) (handler r) = true /\
   _v_cnt (handler r) = _v_cnt h - 1 /\
   exists warnings,
     trace r = (Sleep 1 :: warnings ++ trace (notif w e (_v_cnt h) h))%list /\
     flashed warnings = false) /\
  (~ accepted -> unnoticed r h).
Proof.
  intros Hseen r accepted. unfold r, accepted. clear r accepted.
  destruct (Py.contains ".eds" (src_path e)) eqn:Hext.
  - assert (Hfresh : Py.contains ".eds" (src_path e) && negb (seen (src_path e) h) = true)
      by now rewrite Hext, Hseen.
    destruct (os_stat w (src_path e)) as [bytes|message] eqn:Hstat.
    + destruct (Z.ltb_spec size_threshold bytes) as [Hlarge|Hsmall].
      * rewrite (on_modified_large w e h bytes Hfresh Hstat Hlarge), notif_trace.
        split; [|intros Hno; exfalso; apply Hno; split; [reflexivity|]; now intros ? [= <-]].
        intros _. split; [apply seen_true, elem_of_deque_append|].
        split; [reflexivity|]. now exists [].
      * rewrite (on_modified_small w e h bytes Hfresh Hstat Hsmall).
        split; [|intros _; now apply unnoticed_skip].
        intros [_ Hall]. specialize (Hall bytes eq_refl). lia.
    + rewrite (on_modified_stat_error w e h message Hfresh Hstat), notif_trace.
      rewrite (is_large_enough_error w _ message h Hstat). cbn [trace snd].
      split; [|intros Hno; exfalso; apply Hno; split; [reflexivity|]; now intros ? [=]].
      intros _. split; [apply seen_true, elem_of_deque_append|].
      split; [reflexivity|]. eexists. split; reflexivity.
  - rewrite on_modified_skip by now rewrite Hext.
    split; [now intros [? _]|]. intros _. now apply unnoticed_skip.
Qed.

Lemma on_modified_notifies_iff_witness :
  let e := modified_at "C:\Viia7\Mar 2019\plate7.eds" in
  unnoticed (on_modified small_world e initial) initial /\
  seen (src_path e) (handler (on_modified boundary_world e initial)) = true /\
  _v_cnt (handler (on_modified boundary_world e initial)) = -1.
Proof.
  pose (e := modified_at "C:\Viia7\Mar 2019\plate7.eds").
  destruct (on_modified_notifies_iff small_world e initial eq_refl) as [_ Hno].
  destruct (on_modified_notifies_iff boundary_world e initial eq_refl) as [Hyes _].
  split.
  - apply Hno. intros [_ Hall]. specialize (Hall 1300000 eq_refl).
    unfold size_threshold in Hall. lia.
  - destruct Hyes as (Hs & Hv & _); [|exact (conj Hs Hv)].
    split; [reflexivity|]. intros bytes [= <-]. unfold size_threshold. lia.
Defined.

(** X9. The two sources do not disturb each other. [on_created] never
    writes [_v_cnt] and [on_modified] never writes [_q_cnt]; the counter a
    callback does own is left as it was or decremented by exactly one, and
    it is decremented exactly when the path enters the ledger. *)
Theorem callbacks_keep_to_their_counter (w : world) (e : event) (h : LabHandler) :
  let c := handler (on_created w e h) in
  let m := handler (on_modified w e h) in
  _v_cnt c = _v_cnt h /\
  _q_cnt m = _q_cnt h /\
  (c = h \/
   _q_cnt c = _q_cnt h - 1 /\
   recent_events c = deque_append (recent_events h) (src_path e)) /\
  (m = h \/
   _v_cnt m = _v_cnt h - 1 /\
   recent_events m = deque_append (recent_events h) (src_path e)).
Proof.
  intros c m. unfold c, m. clear c m.
  assert (Hc : on_created w e h = (tt, h, []) \/
               on_created w e h =
               (tt, set_q_cnt (_q_cnt h - 1)
                      (set_recent_events (deque_append (recent_events h) (src_path e)) h),
                notif_effects w e (_q_cnt h))).
  { destruct (Py.contains ".xdrx" (src_path e) && negb (seen (src_path e) h)) eqn:Hfresh;
      [right; now apply on_created_notif | left; now apply on_created_skip]. }
  assert (Hm : handler (on_modified w e h) = h \/
               handler (on_modified w e h) =
               set_v_cnt (_v_cnt h - 1)
                 (set_recent_events (deque_append (recent_events h) (src_path e)) h)).
  { destruct (Py.contains ".eds" (src_path e) && negb (seen (src_path e) h)) eqn:Hfresh;
      [|left; now rewrite on_modified_skip].
    destruct (os_stat w (src_path e)) as [bytes|message] eqn:Hstat.
    - destruct (Z.ltb_spec size_threshold bytes) as [Hlarge|Hsmall].
      + right. now rewrite (on_modified_large w e h bytes).
      + left. now rewrite (on_modified_small w e h bytes).
    - right. now rewrite (on_modified_stat_error w e h message). }
  destruct Hc as [-> | ->], Hm as [-> | ->];
    cbn [handler fst snd _v_cnt _q_cnt recent_events set_q_cnt set_v_cnt set_recent_events];
    repeat split; auto.
Qed.

(** ** The command loop as a whole *)

Lemma first_digit_range (inp : string) : 0 <= first_digit inp <= 9.
Proof.
  induction inp as [|c inp IH]; simpl; [lia|].
  destruct (Py.isdigit c) eqn:Hd; [|exact IH].
  unfold Py.isdigit in Hd. apply andb_prop in Hd as [Hlo Hhi].
  apply Nat.leb_le in Hlo, Hhi. unfold Py.int_of_char. lia.
Qed.

Lemma command_help (h : LabHandler) :
  command "help" h = (tt, h, [Print help_usage; Print help_commands]).
Proof. reflexivity. Qed.

Lemma set_counter_settable (s : source) (x : Z) (h : LabHandler) :
  0 <= x <= 9 -> settable (counter s (handler (set_counter s x h))).
Proof.
  intros Hx. rewrite set_counter_run. unfold settable.
  destruct s; cbn [handler fst snd counter set_v_cnt set_q_cnt _v_cnt _q_cnt];
    destruct (Z.eqb_spec x 0);
    try match goal with |- context [0 <? ?y] => destruct (0 <? y) end; lia.
Qed.

Lemma command_frame (inp : string) (h : LabHandler) :
  let r := command inp h in
  recent_events (handler r) = recent_events h /\
  Forall is_print (trace r) /\
  (_q_cnt (handler r) = _q_cnt h \/ settable (_q_cnt (handler r))) /\
  (_v_cnt (handler r) = _v_cnt h \/ settable (_v_cnt (handler r))).
Proof.
  intros r. unfold r. clear r.
  destruct (String.eqb_spec inp "help") as [->|Hne].
  - rewrite command_help. cbn [handler trace fst snd].
    repeat split; auto. repeat econstructor.
  - apply String.eqb_neq in Hne. rewrite (command_run inp h Hne).
    pose proof (first_digit_range inp) as Hd.
    pose proof (set_counter_settable Qiaxcel (first_digit inp) h Hd) as Hq.
    destruct (Py.contains "q" (Py.lower inp)), (Py.contains "v" (Py.lower inp)).
    + set (hq := handler (set_counter Qiaxcel (first_digit inp) h)) in *.
      pose proof (set_counter_settable Viia7 (first_digit inp) hq Hd) as Hv.
      unfold hq in *. rewrite !set_counter_run in *.
      cbn [handler trace fst snd counter set_v_cnt set_q_cnt _v_cnt _q_cnt recent_events] in *.
      repeat split; auto. repeat econstructor.
    + rewrite !set_counter_run in *.
      cbn [handler trace fst snd counter set_v_cnt set_q_cnt _v_cnt _q_cnt recent_events] in *.
      repeat split; auto. repeat econstructor.
    + pose proof (set_counter_settable Viia7 (first_digit inp) h Hd) as Hv.
      rewrite !set_counter_run in *.
      cbn [handler trace fst snd counter set_v_cnt set_q_cnt _v_cnt _q_cnt recent_events] in *.
      repeat split; auto. repeat econstructor.
    + cbn [handler trace fst snd]. repeat split; auto.
Qed.

(** X10. The command loop keeps to the counters. On lines of ASCII text,
    [get_input] never touches the ledger, its only effects are prints, and
    each counter ends either as it was or at a value a command can give:
    0, 1337 or a digit from 1 to 9. *)
Theorem get_input_keeps_to_counters (lines : list string) (h : LabHandler) :
  Forall ascii_text lines ->
  let r := get_input lines h in
  recent_events (handler r) = recent_events h /\
  Forall is_print (trace r) /\
  (_q_cnt (handler r) = _q_cnt h \/ settable (_q_cnt (handler r))) /\
  (_v_cnt (handler r) = _v_cnt h \/ settable (_v_cnt (handler r))).
Proof.
  intros _. revert h. induction lines as [|inp lines IH]; intros h; cbn [get_input].
  - cbn. repeat split; auto.
  - unfold mbind, M_mbind, M_bind.
    destruct (command_frame inp h) as (Hl & Hp & Hq & Hv).
    destruct (command inp h) as [[u h1] t1].
    cbn [handler trace fst snd] in Hl, Hp, Hq, Hv.
    specialize (IH h1). cbv zeta in IH. destruct IH as (IHl & IHp & IHq & IHv).
    destruct (get_input lines h1) as [[u2 h2] t2].
    cbn [handler trace fst snd] in *.
    split; [congruence|]. split; [now apply Forall_app|].
    split.
    + destruct IHq as [IHq|IHq]; [rewrite IHq; exact Hq | now right].
    + destruct IHv as [IHv|IHv]; [rewrite IHv; exact Hv | now right].
Qed.

Lemma get_input_keeps_to_counters_witness :
  let r := get_input ["q3"; "help"; "V"; "7"] initial in
  recent_events (handler r) = ["g"; "h"; "i"] /\
  Forall is_print (trace r) /\
  (_q_cnt (handler r) = 0 \/ settable (_q_cnt (handler r))) /\
  (_v_cnt (handler r) = 0 \/ settable (_v_cnt (handler r))).
Proof.
  apply (get_input_keeps_to_counters ["q3"; "help"; "V"; "7"] initial).
  repeat (constructor; [reflexivity|]). constructor.
Defined.

(** X11. Lines that name no machine change nothing. If the lines are ASCII
    text and none holds a [q] or a [v] in either letter case, [get_input]
    leaves the handler as it was, and all it prints is the two help texts,
    once for each line that is exactly [help]; digits alone have no
    effect. *)
Theorem lines_without_machine_change_nothing (lines : list string) (h : LabHandler) :
  Forall ascii_text lines ->
  Forall names_no_machine lines ->
  let r := get_input lines h in
  handler r = h /\
  console (trace r) =
  mjoin ((fun _ => [help_usage; help_commands]) <$> filter (fun inp => inp = "help") lines).
Proof.
  intros _ Hall. revert h.
  induction Hall as [|inp lines [Hq Hv] Hall IH]; intros h; cbn [get_input].
  - now cbn.
  - unfold mbind, M_mbind, M_bind.
    assert (Hcmd : command inp h =
                   (tt, h, if decide (inp = "help")
                           then [Print help_usage; Print help_commands] else [])).
    { destruct (decide (inp = "help")) as [->|Hne]; [apply command_help|].
      apply String.eqb_neq in Hne. rewrite (command_run inp h Hne), Hq, Hv.
      reflexivity. }
    rewrite Hcmd. specialize (IH h). cbv zeta in IH. destruct IH as [IHh IHc].
    destruct (get_input lines h) as [[u2 h2] t2].
    cbn [handler trace fst snd] in *. split; [exact IHh|].
    unfold console in *. rewrite omap_app, IHc.
    rewrite filter_cons. destruct (decide (inp = "help")); reflexivity.
Qed.

Lemma lines_without_machine_change_nothing_witness :
  let r := get_input ["7"; "help"; "HELP 2"] initial in
  handler r = initial /\ console (trace r) = [help_usage; help_commands].
Proof.
  apply (lines_without_machine_change_nothing ["7"; "help"; "HELP 2"] initial).
  - repeat (constructor; [reflexivity|]). constructor.
  - repeat (constructor; [split; reflexivity|]). constructor.
Defined.

(** X12. A command is read for three things only: its first digit and
    whether a [q] and a [v] occur in it, in either letter case. Two lines
    that agree on these, neither being [help], have the same effect, and the
    Qiaxcel status is printed before the Viia7 one whatever the order of the
    letters. *)
Theorem command_reads_digit_and_letters (inp1 inp2 : string) (h : LabHandler) :
  inp1 <> "help" ->
  inp2 <> "help" ->
  first_digit inp1 = first_digit inp2 ->
  Py.contains "q" (Py.lower inp1) = Py.contains "q" (Py.lower inp2) ->
  Py.contains "v" (Py.lower inp1) = Py.contains "v" (Py.lower inp2) ->
  command inp1 h = command inp2 h /\
  (Py.contains "q" (Py.lower inp1) = true ->
   Py.contains "v" (Py.lower inp1) = true ->
   console (trace (command inp1 h)) =
   [str_or_None (notify_setting qiaxcel_str (_q_cnt (handler (command inp1 h))));
    str_or_None (notify_setting viia7_str (_v_cnt (handler (command inp1 h))))]).
Proof.
  intros H1%String.eqb_neq H2%String.eqb_neq Hd Hq Hv.
  rewrite (command_run inp1 h H1), (command_run inp2 h H2), <- Hd, <- Hq, <- Hv.
  split; [reflexivity|]. intros -> ->.
  rewrite !set_counter_run. reflexivity.
Qed.

Lemma command_reads_digit_and_letters_witness :
  command "V7 Q9" initial = command "q7v" initial /\
  console (trace (command "V7 Q9" initial)) =
  [Py.ljust 19 " " "" +:+ qiaxcel_str +:+ " Notifying in 7 runs time";
   Py.ljust 19 " " "" +:+ viia7_str +:+ " Notifying in 7 runs time"].
Proof.
  destruct (command_reads_digit_and_letters "V7 Q9" "q7v" initial) as [Heq Hout];
    try reflexivity; try discriminate.
  exact (conj Heq (Hout eq_refl eq_refl)).
Defined.

(** ** The file name shown in a notification *)

Lemma string_length_app (a b : string) :
  String.length (a +:+ b) = (String.length a + String.length b)%nat.
Proof. induction a as [|c a IH]; simpl; [reflexivity | now rewrite IH]. Qed.

Lemma string_app_assoc (a b c : string) : (a +:+ b) +:+ c = a +:+ b +:+ c.
Proof.
  induction a as [|x a IH]; [reflexivity|].
  change (String x ((a +:+ b) +:+ c) = String x (a +:+ b +:+ c)). now rewrite IH.
Qed.

Lemma occurs_app (c : ascii) (a b : string) :
  occurs c (a +:+ b) = occurs c a || occurs c b.
Proof.
  induction a as [|x a IH]; simpl; [reflexivity|].
  now rewrite IH, orb_assoc.
Qed.

Lemma rfind_from_app (c : ascii) (a b : string) :
  forall i acc : Z,
    Py.rfind_from c (a +:+ b) i acc =
    Py.rfind_from c b (i + Z.of_nat (String.length a)) (Py.rfind_from c a i acc).
Proof.
  induction a as [|x a IH]; intros i acc.
  - change ("" +:+ b) with b. cbn [Py.rfind_from String.length]. f_equal. lia.
  - change (String x a +:+ b) with (String x (a +:+ b)).
    cbn [Py.rfind_from String.length]. rewrite IH. f_equal. lia.
Qed.

Lemma rfind_from_absent (c : ascii) (s : string) :
  forall i acc : Z, occurs c s = false -> Py.rfind_from c s i acc = acc.
Proof.
  induction s as [|x s IH]; intros i acc H; simpl in *; [reflexivity|].
  apply orb_false_elim in H as [Hx Hs]. rewrite Hx. now apply IH.
Qed.

Lemma rfind_from_bound (c : ascii) (s : string) :
  forall i acc : Z,
    acc < i -> Py.rfind_from c s i acc < i + Z.of_nat (String.length s).
Proof.
  induction s as [|x s IH]; intros i acc H; cbn [Py.rfind_from String.length].
  - lia.
  - specialize (IH (i + 1) (if Ascii.eqb x c then i else acc)).
    destruct (Ascii.eqb x c); lia.
Qed.

(** The last occurrence of [c] in [a c b], when [b] is free of [c] *)
Lemma rfind_last (c : ascii) (a b : string) :
  occurs c b = false ->
  Py.rfind c (a +:+ String c b) = Z.of_nat (String.length a).
Proof.
  intros Hb. unfold Py.rfind. rewrite rfind_from_app. cbn [Py.rfind_from].
  rewrite Ascii.eqb_refl. now rewrite rfind_from_absent.
Qed.

Lemma rfind_prefix (c : ascii) (a b : string) :
  occurs c b = false ->
  Py.rfind c (a +:+ b) = Py.rfind c a /\
  Py.rfind c a < Z.of_nat (String.length a).
Proof.
  intros Hb. unfold Py.rfind. rewrite rfind_from_app, rfind_from_absent by exact Hb.
  split; [reflexivity|].
  pose proof (rfind_from_bound c a 0 (-1)). lia.
Qed.

Lemma substring_app_skip (a b : string) (n : nat) :
  String.substring (String.length a) n (a +:+ b) = String.substring 0 n b.
Proof. induction a as [|x a IH]; simpl; [reflexivity | exact IH]. Qed.

Lemma substring_prefix (a b : string) :
  String.substring 0 (String.length a) (a +:+ b) = a.
Proof.
  induction a as [|x a IH]; simpl; [now destruct b | now rewrite IH].
Qed.

Lemma split_no_sep (sep : ascii) (s : string) :
  occurs sep s = false -> Py.split sep s = [s].
Proof.
  induction s as [|x s IH]; intros H; simpl in *; [reflexivity|].
  apply orb_false_elim in H as [Hx Hs]. now rewrite Hx, IH.
Qed.

Lemma split_not_nil (sep : ascii) (s : string) : Py.split sep s <> [].
Proof.
  destruct s as [|x s]; simpl; [discriminate|].
  destruct (Ascii.eqb x sep); [discriminate|].
  now destruct (Py.split sep s).
Qed.

Lemma split_app_sep (sep : ascii) (a b : string) :
  exists (first : string) (init : list string),
    Py.split sep (a +:+ String sep b) = (first :: init ++ Py.split sep b)%list.
Proof.
  induction a as [|x a (first & init & IH)].
  - exists "", []. change ("" +:+ String sep b) with (String sep b).
    cbn [Py.split]. now rewrite Ascii.eqb_refl.
  - change (String x a +:+ String sep b) with (String x (a +:+ String sep b)).
    cbn [Py.split]. rewrite IH.
    destruct (Ascii.eqb x sep).
    + now exists "", (first :: init).
    + now exists (String x first), init.
Qed.

Lemma last_app_not_nil (l1 l2 : list string) (d : string) :
  l2 <> [] -> List.last (l1 ++ l2) d = List.last l2 d.
Proof.
  intros Hne. induction l1 as [|x l1 IH]; [reflexivity|].
  cbn [app List.last]. rewrite IH.
  destruct (l1 ++ l2)%list eqn:Happ; [|reflexivity].
  apply app_eq_nil in Happ as [_ ->]. congruence.
Qed.

Lemma last_item_split_app (sep : ascii) (a b : string) :
  Py.last_item (Py.split sep (a +:+ String sep b)) = Py.last_item (Py.split sep b).
Proof.
  unfold Py.last_item. destruct (split_app_sep sep a b) as (first & init & ->).
  apply (last_app_not_nil (first :: init)), split_not_nil.
Qed.

Lemma all_dots_false_not_empty (s : string) : Py.all_dots s = false -> s <> "".
Proof. now intros H ->. Qed.

Lemma slice_middle (a b c : string) :
  Py.slice (a +:+ b +:+ c)
    (Z.of_nat (String.length a)) (Z.of_nat (String.length a + String.length b)) = b.
Proof.
  unfold Py.slice.
  replace (Z.to_nat (Z.of_nat (String.length a))) with (String.length a) by lia.
  replace (Z.to_nat (Z.of_nat (String.length a + String.length b) - Z.of_nat (String.length a)))
    with (String.length b) by lia.
  now rewrite substring_app_skip, substring_prefix.
Qed.

Lemma slice_prefix (a b : string) :
  Py.slice (a +:+ b) 0 (Z.of_nat (String.length a)) = a.
Proof.
  unfold Py.slice. change (Z.to_nat 0) with 0%nat.
  replace (Z.to_nat (Z.of_nat (String.length a) - 0)) with (String.length a) by lia.
  apply substring_prefix.
Qed.

Lemma no_separator_occurs (s : string) :
  no_separator s = true -> occurs "\" s = false /\ occurs "/" s = false.
Proof.
  unfold no_separator. intros [H1 H2]%andb_prop.
  now apply negb_true_iff in H1, H2.
Qed.

(** X13. The file name of a notification is the base name without its
    extension. For a path [dir\name.ext], where [name] holds no separator
    and is not made of dots only and [ext] holds no dot and no separator,
    [get_event_info] shows [name], whatever [dir] is; for a path [dir\name]
    whose [name] holds no dot, a dot in [dir] is not taken for an extension
    and the file name is [name] too. *)
Theorem file_name_is_base_name (dir name ext : string) (e : event) :
  no_separator name = true ->
  (Py.all_dots name = false ->
   occurs "." ext = false ->
   no_separator ext = true ->
   src_path e = dir +:+ String "\" (name +:+ String "." ext) ->
   (get_event_info e).2 = name) /\
  (occurs "." name = false ->
   src_path e = dir +:+ String "\" name ->
   (get_event_info e).2 = name).
Proof.
  intros [Hnb Hnf]%no_separator_occurs.
  assert (Hlast : forall a, file_name a = Py.last_item (Py.split "\" (Py.splitext_root a)))
    by reflexivity.
  split.
  - intros Hdots Hed [Heb Hef]%no_separator_occurs Hpath.
    unfold get_event_info. cbn [snd]. rewrite Hpath, Hlast. clear Hpath Hlast e.
    set (p := dir +:+ String "\" (name +:+ String "." ext)).
    assert (Hbs : Py.rfind "\" p = Z.of_nat (String.length dir)).
    { apply rfind_last. rewrite occurs_app. cbn [occurs]. now rewrite Hnb, Heb. }
    assert (Hfs : Py.rfind "/" p < Z.of_nat (String.length dir)).
    { unfold p. destruct (rfind_prefix "/" dir (String "\" (name +:+ String "." ext)))
        as [-> Hlt]; [|exact Hlt].
      cbn [occurs]. rewrite occurs_app. cbn [occurs]. now rewrite Hnf, Hef. }
    assert (Hp : p = (dir +:+ String "\" name) +:+ String "." ext).
    { unfold p. now rewrite string_app_assoc. }
    assert (Hdot : Py.rfind "." p =
                   Z.of_nat (String.length dir + String.length (String "\" name))).
    { rewrite Hp, rfind_last by exact Hed. now rewrite string_length_app. }
    unfold Py.splitext_root. fold p. rewrite Hbs, Hdot.
    replace (Z.of_nat (String.length dir) `max` Py.rfind "/" p)
      with (Z.of_nat (String.length dir)) by lia.
    cbn [String.length].
    replace (Z.of_nat (String.length dir) <? Z.of_nat (String.length dir + S (String.length name)))
      with true by (symmetry; apply Z.ltb_lt; lia).
    assert (Hmid : Py.slice p (Z.of_nat (String.length dir) + 1)
                     (Z.of_nat (String.length dir + S (String.length name))) = name).
    { unfold p.
      change (dir +:+ String "\" (name +:+ String "." ext))
        with (dir +:+ String "\" "" +:+ name +:+ String "." ext).
      rewrite <- (string_app_assoc dir).
      replace (Z.of_nat (String.length dir) + 1)
        with (Z.of_nat (String.length (dir +:+ String "\" ""))).
      2:{ rewrite string_length_app. cbn [String.length]. lia. }
      replace (String.length dir + S (String.length name))%nat
        with (String.length (dir +:+ String "\" "") + String.length name)%nat.
      2:{ rewrite string_length_app. cbn [String.length]. lia. }
      apply slice_middle. }
    rewrite Hmid, Hdots. cbn [negb andb].
    replace (String.length dir + S (String.length name))%nat
      with (String.length (dir +:+ String "\" name)).
    2:{ rewrite string_length_app. reflexivity. }
    rewrite Hp, slice_prefix, last_item_split_app, split_no_sep by exact Hnb.
    reflexivity.
  - intros Hnd Hpath.
    unfold get_event_info. cbn [snd]. rewrite Hpath, Hlast. clear Hpath Hlast e.
    set (p := dir +:+ String "\" name).
    assert (Hbs : Py.rfind "\" p = Z.of_nat (String.length dir))
      by now apply rfind_last.
    assert (Hdot : Py.rfind "." p < Z.of_nat (String.length dir)).
    { unfold p, Py.rfind. rewrite rfind_from_app. cbn [Py.rfind_from].
      change (Ascii.eqb "\" ".") with false. cbv iota.
      rewrite rfind_from_absent by exact Hnd.
      pose proof (rfind_from_bound "." dir 0 (-1)). lia. }
    unfold Py.splitext_root. fold p. rewrite Hbs.
    replace (Z.of_nat (String.length dir) `max` Py.rfind "/" p <? Py.rfind "." p)
      with false by (symmetry; apply Z.ltb_ge; lia).
    cbn [andb]. unfold p.
    now rewrite last_item_split_app, split_no_sep.
Qed.

Lemma file_name_is_base_name_witness :
  (get_event_info (modified_at "\\File01-s0\qPCR 2019\Sept 2019\plate.7.rerun.eds")).2 =
  "plate.7.rerun".
Proof.
  exact (proj1 (file_name_is_base_name
                  "\\File01-s0\qPCR 2019\Sept 2019" "plate.7.rerun" "eds"
                  (modified_at "\\File01-s0\qPCR 2019\Sept 2019\plate.7.rerun.eds")
                  eq_refl)
           eq_refl eq_refl eq_refl eq_refl).
Defined.

(** ** Month directories, whatever the file system *)

Lemma isdir_mono (dirs dirs' : gset string) (p : string) :
  dirs ⊆ dirs' -> isdir dirs p = true -> isdir dirs' p = true.
Proof.
  unfold isdir. intros Hsub H%bool_decide_eq_true.
  apply bool_decide_eq_true. set_solver.
Qed.

Lemma isdir_makedirs (dirs : gset string) (p : string) :
  isdir (os_makedirs p dirs) p = true.
Proof. unfold isdir, os_makedirs. apply bool_decide_eq_true. set_solver. Qed.

Lemma month_path_abbr (d : date) : is_month_path (abbr_path d).
Proof. now exists (strftime_b (mon d)), (strftime_Y (year d)). Qed.

Lemma month_path_full (d : date) : is_month_path (full_path d).
Proof. now exists (strftime_B (mon d)), (strftime_Y (year d)). Qed.

Lemma month_path_sept (d : date) : is_month_path (sept_path d).
Proof. now exists "Sept", (strftime_Y (year d)). Qed.

Lemma qiaxcel_not_month_path : ~ is_month_path qiaxcel.
Proof. intros (month & year & H). unfold qiaxcel, build_path in H. discriminate H. Qed.

Lemma resolved_date_cases (today : date) (last : bool) :
  (exists d, resolved_date today last = Return d) \/
  (last = true /\ resolved_date today last = Raise OverflowError /\
   mon today = Jan /\ year today <= MINYEAR).
Proof.
  destruct last; [|left; now exists today].
  unfold resolved_date, minus_one_day, replace_day_1. cbn [day mon year].
  change (1 <? 1) with false. cbv iota.
  destruct (mon today); try (left; eexists; reflexivity).
  destruct (Z.ltb_spec MINYEAR (year today)); [left; eexists; reflexivity|].
  right. auto.
Qed.

(** The outcomes of [viia7_path], case by case *)
Lemma viia7_path_cases (today : date) (last : bool) (dirs : gset string) :
  (exists d p,
      resolved_date today last = Return d /\
      (p = abbr_path d \/ p = full_path d \/ (mon d = Sep /\ p = sept_path d)) /\
      isdir dirs p = true /\
      viia7_path today last dirs =
      {| returned := Return p; dirs_after := dirs; printed := [] |}) \/
  (exists d,
      resolved_date today last = Return d /\ last = false /\
      isdir dirs (abbr_path d) = false /\
      viia7_path today last dirs =
      {| returned := Return (abbr_path d);
         dirs_after := os_makedirs (abbr_path d) dirs; printed := [] |}) \/
  (last = true /\
   viia7_path today last dirs =
   {| returned := Raise FileNotFoundError; dirs_after := dirs;
      printed := ["Cant find last month's Viia7 Path"] |}) \/
  (last = true /\ mon today = Jan /\ year today <= MINYEAR /\
   viia7_path today last dirs =
   {| returned := Raise OverflowError; dirs_after := dirs; printed := [] |}).
Proof.
  destruct (resolved_date_cases today last) as [[d Hd]|(-> & Hd & Hjan & Hyear)].
  - rewrite (viia7_path_run today last dirs d Hd).
    destruct (isdir dirs (abbr_path d)) eqn:Ha;
      [left; exists d, (abbr_path d); auto 6|].
    destruct (isdir dirs (full_path d)) eqn:Hf;
      [left; exists d, (full_path d); auto 6|].
    assert (Hnone :
      forall o : outcome,
        o = (if last
             then {| returned := Raise FileNotFoundError; dirs_after := dirs;
                     printed := ["Cant find last month's Viia7 Path"] |}
             else {| returned := Return (abbr_path d);
                     dirs_after := os_makedirs (abbr_path d) dirs; printed := [] |}) ->
        (exists d0,
            resolved_date today last = Return d0 /\ last = false /\
            isdir dirs (abbr_path d0) = false /\
            o = {| returned := Return (abbr_path d0);
                   dirs_after := os_makedirs (abbr_path d0) dirs; printed := [] |}) \/
        (last = true /\
         o = {| returned := Raise FileNotFoundError; dirs_after := dirs;
                printed := ["Cant find last month's Viia7 Path"] |})).
    { intros o ->. destruct last; [now right | left; now exists d]. }
    destruct (mon d) eqn:Hm; cbn [andb];
      try (right; destruct (Hnone _ eq_refl) as [H|H]; [left|right; left]; exact H).
    destruct (isdir dirs (sept_path d)) eqn:Hs;
      [left; exists d, (sept_path d); auto 6|].
    right. destruct (Hnone _ eq_refl) as [H|H]; [left|right; left]; exact H.
  - right. right. right. unfold resolved_date in Hd. unfold viia7_path.
    rewrite Hd. auto.
Qed.

Lemma candidate_abbr (d : date) : candidate d (abbr_path d).
Proof. now left. Qed.

Lemma candidate_month_path (d : date) (p : string) :
  candidate d p -> is_month_path p.
Proof.
  intros [->|[->|[_ ->]]];
    auto using month_path_abbr, month_path_full, month_path_sept.
Qed.



(** X15. What [viia7_path] leaves behind. It never removes a directory.
    When it returns a path, that path is one of the three names of the
    month it resolved, is a directory afterwards, and nothing was printed;
    for the previous month the file system is then as it was. It prints
    only for the previous month, only the one-line message, and then raises
    [FileNotFoundError] with the file system as it was. *)
Theorem resolution_postcondition (today : date) (last : bool) (dirs : gset string) :
  let r := viia7_path today last dirs in
  dirs ⊆ dirs_after r /\
  (forall p, returned r = Return p ->
             (exists d, resolved_date today last = Return d /\ candidate d p) /\
             is_month_path p /\
             isdir (dirs_after r) p = true /\
             printed r = [] /\
             (last = true -> dirs_after r = dirs)) /\
  (printed r <> [] ->
   last = true /\
   returned r = Raise FileNotFoundError /\
   printed r = ["Cant find last month's Viia7 Path"] /\
   dirs_after r = dirs).
Proof.
  intros r. unfold r. clear r.
  destruct (viia7_path_cases today last dirs)
    as [(d & p & Hd & Hwhich & Hp & ->)
       |[(d & Hd & -> & Ha & ->)
        |[(-> & ->)|(-> & Hjan & Hyear & ->)]]];
    cbn [returned printed dirs_after].
  - split; [set_solver|]. split; [|congruence].
    intros ? [= <-]. repeat split; eauto using candidate_month_path.
  - split; [unfold os_makedirs; set_solver|]. split; [|congruence].
    intros ? [= <-]. repeat split;
      eauto using month_path_abbr, isdir_makedirs, candidate_abbr; discriminate.
  - split; [set_solver|]. split; [discriminate|]. auto.
  - split; [set_solver|]. split; [discriminate|congruence].
Qed.

(** X16. The previous month is the calendar month before today's,
    whatever the day: its year is the year before when today is in January.
    Unless today is in January of the first year, a directory of that
    month's abbreviated name under that year's folder is what
    [viia7_path(last=True)] returns when it exists. *)
Theorem previous_month_rolls_over_the_year (today : date) (dirs : gset string) :
  mon today <> Jan \/ MINYEAR < year today ->
  let month := strftime_b (pred_month (mon today)) in
  let year := strftime_Y (match mon today with Jan => year today - 1 | _ => year today end) in
  isdir dirs (build_path month year) = true ->
  viia7_path today true dirs =
  {| returned := Return (build_path month year); dirs_after := dirs; printed := [] |}.
Proof.
  intros Hok month year Hdir.
  destruct (resolved_date_cases today true) as [[d Hd]|(_ & _ & Hjan & Hyear)];
    [|destruct Hok; [congruence | lia]].
  destruct (resolved_previous_month today d Hd) as [Hm Hy].
  rewrite (viia7_path_run today true dirs d Hd).
  unfold abbr_path. rewrite Hm, Hy. fold month year. now rewrite Hdir.
Qed.

Lemma previous_month_rolls_over_the_year_witness :
  viia7_path mid_january true {[ build_path "Dec" "2019" ]} =
  {| returned := Return (build_path "Dec" "2019");
     dirs_after := {[ build_path "Dec" "2019" ]}; printed := [] |}.
Proof.
  apply (previous_month_rolls_over_the_year mid_january {[ build_path "Dec" "2019" ]}).
  - right. unfold MINYEAR. cbn. lia.
  - reflexivity.
Defined.

(** ** Start-up and the hourly month check *)

Lemma which_month_path (d : date) (p : string) :
  p = abbr_path d \/ p = full_path d \/ (mon d = Sep /\ p = sept_path d) ->
  is_month_path p.
Proof.
  intros [->|[->|[_ ->]]];
    auto using month_path_abbr, month_path_full, month_path_sept.
Qed.

(** X17. Start-up resolves the current month before the previous one. It
    never removes a directory. When it prints the message that the previous
    month's directory cannot be found, it raises [FileNotFoundError] with no
    watch scheduled, and a directory of the current month exists all the
    same, found or just created. When it succeeds, exactly three watches
    were scheduled, in this order: the Qiaxcel directory, a directory of one
    of the three names of the month before today's, and a directory of one
    of the three names of today's month; both exist, and the two greeting
    lines follow. *)
Theorem startup_outcome (today : date) (dirs : gset string) :
  let r := startup today dirs in
  dirs ⊆ main_dirs r /\
  (Printed "Cant find last month's Viia7 Path" ∈ main_trace r ->
   main_result r = Raise FileNotFoundError /\
   scheduled (main_trace r) = [] /\
   exists p, candidate today p /\ isdir (main_dirs r) p = true) /\
  (forall st, main_result r = Return st ->
              main_trace r =
              [Schedule qiaxcel; Schedule (viia7watch_last st);
               Schedule (viia7watch_curr st);
               Printed "Running..."; Printed "Enter a command or type help"] /\
              current_month_year st = strftime_b_Y today /\
              (exists d, resolved_date today true = Return d /\
                         mon d = pred_month (mon today) /\
                         candidate d (viia7watch_last st)) /\
              candidate today (viia7watch_curr st) /\
              isdir (main_dirs r) (viia7watch_last st) = true /\
              isdir (main_dirs r) (viia7watch_curr st) = true).
Proof.
  intros r. unfold r, startup. clear r.
  assert (Hcur : exists p dirs1,
             candidate today p /\
             isdir dirs1 p = true /\ dirs ⊆ dirs1 /\
             viia7_path today false dirs =
             {| returned := Return p; dirs_after := dirs1; printed := [] |}).
  { destruct (viia7_path_cases today false dirs)
      as [(d & p & [= <-] & Hwhich & Hp & Hrun)
         |[(d & [= <-] & _ & Ha & Hrun)
          |[(Hlast & _)|(Hlast & _)]]]; try discriminate Hlast.
    - exists p, dirs. auto.
    - exists (abbr_path today), (os_makedirs (abbr_path today) dirs).
      repeat split; auto using isdir_makedirs, candidate_abbr.
      unfold os_makedirs. set_solver. }
  destruct Hcur as (viia7 & dirs1 & Hwhich & Hviia7 & Hsub & ->).
  cbn [returned printed dirs_after].
  destruct (viia7_path_cases today true dirs1)
    as [(d & viia7last & Hd & Hwhichl & Hlastdir & ->)
       |[(d & _ & Hlast & _)
        |[(_ & ->)|(_ & _ & _ & ->)]]]; try discriminate Hlast;
    cbn [returned printed dirs_after main_result main_dirs main_trace app fmap list_fmap].
  - split; [exact Hsub|]. split.
    + intros Hin. exfalso. clear -Hin.
      repeat (apply elem_of_cons in Hin as [Hin|Hin]; [discriminate Hin|]).
      now apply elem_of_nil in Hin.
    + intros st [= <-]. cbn [current_month_year viia7watch_last viia7watch_curr].
      destruct (resolved_previous_month today d Hd) as [Hm _].
      repeat split; eauto.
  - split; [exact Hsub|]. split; [|discriminate].
    intros _. repeat split; eauto.
  - split; [exact Hsub|]. split; [|discriminate].
    intros Hin. now apply elem_of_nil in Hin.
Qed.

(** X18. The hourly check rotates the watches only when the month text
    changed. With the same month it just sleeps the hour. With a new one, a
    turn that completes has announced the month, unscheduled the watch of
    the month before last, scheduled an existing directory of one of the
    three names of today's month, slept the hour, and kept the former
    current watch as the previous one; no directory was removed. *)
Theorem month_check_rotates (today : date) (st : main_state) (dirs : gset string) :
  let r := month_check today st dirs in
  (current_month_year st = strftime_b_Y today ->
   main_result r = Return st /\ main_dirs r = dirs /\ main_trace r = [Slept 3600]) /\
  (current_month_year st <> strftime_b_Y today ->
   forall st', main_result r = Return st' ->
   exists viia7,
     st' = {| current_month_year := strftime_b_Y today;
              viia7watch_last := viia7watch_curr st;
              viia7watch_curr := viia7 |} /\
     main_trace r =
     [Printed ("The month has changed to " +:+ strftime_b_Y today);
      Unschedule (viia7watch_last st); Schedule viia7; Slept 3600] /\
     candidate today viia7 /\
     isdir (main_dirs r) viia7 = true /\
     dirs ⊆ main_dirs r).
Proof.
  intros r. unfold r, month_check. clear r. split.
  - intros ->. now rewrite String.eqb_refl.
  - intros Hne%String.eqb_neq. rewrite Hne. cbn [negb].
    destruct (viia7_path_cases today false dirs)
      as [(d & p & [= <-] & Hwhich & Hp & ->)
         |[(d & [= <-] & _ & Ha & ->)
          |[(Hlast & _)|(Hlast & _)]]]; try discriminate Hlast;
      cbn [returned printed dirs_after main_result main_dirs main_trace];
      intros st' [= <-].
    + exists p. repeat split; auto.
    + exists (abbr_path today).
      repeat split; auto using candidate_abbr, isdir_makedirs.
      unfold os_makedirs. set_solver.
Qed.

Lemma month_check_step (today : date) (st : main_state) (dirs : gset string) :
  is_month_path (viia7watch_last st) ->
  is_month_path (viia7watch_curr st) ->
  exists st',
    main_result (month_check today st dirs) = Return st' /\
    is_month_path (viia7watch_last st') /\
    is_month_path (viia7watch_curr st') /\
    Forall is_month_path (unscheduled (main_trace (month_check today st dirs))) /\
    length (scheduled (main_trace (month_check today st dirs))) =
    length (unscheduled (main_trace (month_check today st dirs))) /\
    dirs ⊆ main_dirs (month_check today st dirs).
Proof.
  intros Hl Hc. unfold month_check.
  destruct (String.eqb (current_month_year st) (strftime_b_Y today)); cbn [negb].
  - exists st. cbn. repeat split; auto.
  - destruct (viia7_path_cases today false dirs)
      as [(d & p & [= <-] & Hwhich & Hp & ->)
         |[(d & [= <-] & _ & Ha & ->)
          |[(Hlast & _)|(Hlast & _)]]]; try discriminate Hlast;
      cbn [returned printed dirs_after main_result main_dirs main_trace];
      eexists; (split; [reflexivity|]); cbn; repeat split;
      eauto using which_month_path, month_path_abbr.
    unfold os_makedirs. set_solver.
Qed.

(** X19. The Qiaxcel watch is never unscheduled. Started with month
    directories in its two watch variables, as start-up leaves them, the
    month check, over any number of turns, unschedules only watches on month
    directories, and the Qiaxcel directory is none; it schedules as many
    watches as it unschedules; it never removes a directory; and when the
    turns complete, the two watch variables hold month directories again. *)
Theorem qiaxcel_watch_is_never_unscheduled
    (days : list date) (st : main_state) (dirs : gset string) :
  is_month_path (viia7watch_last st) ->
  is_month_path (viia7watch_curr st) ->
  let r := month_checks days st dirs in
  (qiaxcel ∉ unscheduled (main_trace r)) /\
  Forall is_month_path (unscheduled (main_trace r)) /\
  length (scheduled (main_trace r)) = length (unscheduled (main_trace r)) /\
  dirs ⊆ main_dirs r /\
  (forall st', main_result r = Return st' ->
               is_month_path (viia7watch_last st') /\
               is_month_path (viia7watch_curr st')).
Proof.
  intros Hl Hc r.
  enough (Hinv :
    Forall is_month_path (unscheduled (main_trace r)) /\
    length (scheduled (main_trace r)) = length (unscheduled (main_trace r)) /\
    dirs ⊆ main_dirs r /\
    (forall st', main_result r = Return st' ->
                 is_month_path (viia7watch_last st') /\
                 is_month_path (viia7watch_curr st'))).
  { destruct Hinv as (Hun & Hlen & Hsub & Hst).
    split; [|exact (conj Hun (conj Hlen (conj Hsub Hst)))].
    intros Hin. rewrite Forall_forall in Hun.
    exact (qiaxcel_not_month_path (Hun _ Hin)). }
  unfold r. clear r. revert st dirs Hl Hc.
  induction days as [|today days IH]; intros st dirs Hl Hc; cbn [month_checks].
  - cbn. split; [constructor|]. split; [reflexivity|]. split; [reflexivity|].
    intros st' [= <-]. auto.
  - destruct (month_check_step today st dirs Hl Hc)
      as (st1 & Hr & Hl1 & Hc1 & Hun1 & Hlen1 & Hsub1).
    rewrite Hr.
    destruct (IH st1 (main_dirs (month_check today st dirs)) Hl1 Hc1)
      as (Hun & Hlen & Hsub & Hst).
    cbn [main_result main_dirs main_trace].
    unfold scheduled, unscheduled in *.
    rewrite !omap_app, !length_app. split; [now apply Forall_app|].
    split; [lia|].
    split; [now transitivity (main_dirs (month_check today st dirs))|].
    exact Hst.
Qed.

Lemma qiaxcel_watch_is_never_unscheduled_witness :
  let st := {| current_month_year := "Oct 2019";
               viia7watch_last := build_path "Sept" "2019";
               viia7watch_curr := build_path "Oct" "2019" |} in
  let r := month_checks [mid_october; mid_january] st ∅ in
  (qiaxcel ∉ unscheduled (main_trace r)) /\
  unscheduled (main_trace r) = [build_path "Sept" "2019"] /\
  length (scheduled (main_trace r)) = length (unscheduled (main_trace r)).
Proof.
  destruct (qiaxcel_watch_is_never_unscheduled [mid_october; mid_january]
              {| current_month_year := "Oct 2019";
                 viia7watch_last := build_path "Sept" "2019";
                 viia7watch_curr := build_path "Oct" "2019" |} ∅)
    as (Hq & _ & Hlen & _).
  - now exists "Sept", "2019".
  - now exists "Oct", "2019".
  - exact (conj Hq (conj eq_refl Hlen)).
Defined.

(** ** Two more edges *)

(** X20. A command reaches only the machines it names. A line without a
    [q], in either letter case, leaves [_q_cnt] as it was, and a line
    without a [v] leaves [_v_cnt] as it was, whatever digit the line
    holds. *)
Theorem command_selects_machine (inp : string) (h : LabHandler) :
  (Py.contains "q" (Py.lower inp) = false ->
   _q_cnt (handler (command inp h)) = _q_cnt h) /\
  (Py.contains "v" (Py.lower inp) = false ->
   _v_cnt (handler (command inp h)) = _v_cnt h).
Proof.
  destruct (String.eqb_spec inp "help") as [->|Hne].
  - rewrite command_help. now cbn.
  - apply String.eqb_neq in Hne. rewrite (command_run inp h Hne).
    split; intros ->.
    + destruct (Py.contains "v" (Py.lower inp)); [|reflexivity].
      rewrite set_counter_run. reflexivity.
    + destruct (Py.contains "q" (Py.lower inp)); [|reflexivity].
      rewrite set_counter_run. reflexivity.
Qed.

(** X21. The ledger forgets. Once [maxlen] other paths have been recorded
    after a path, that path is no longer in the ledger, and a created event
    on it (a [.xdrx] path) is notified once more: [_q_cnt] is decremented
    and the path is recorded again. *)
Theorem forgotten_path_is_notified_again
    (w : world) (e : event) (later : list string) (h : LabHandler) :
  bounded h ->
  length later = maxlen ->
  src_path e ∉ later ->
  Py.contains ".xdrx" (src_path e) = true ->
  let h' := handler (record_all (src_path e :: later) h) in
  let r := on_created w e h' in
  seen (src_path e) h' = false /\
  trace r = trace (notif w e (_q_cnt h) h') /\
  _q_cnt (handler r) = _q_cnt h - 1 /\
  seen (src_path e) (handler r) = true.
Proof.
  intros Hb Hlen Hnot Hext h' r.
  assert (Hledger : recent_events h' = later).
  { unfold h'. rewrite record_all_handler.
    unfold handler, set_recent_events. cbn [fst snd recent_events].
    rewrite foldl_deque_append_drop by exact Hb.
    cbn [length]. rewrite Hlen. unfold bounded in Hb.
    replace (length (recent_events h) + S maxlen - maxlen)%nat
      with (length (recent_events h) + 1)%nat by lia.
    rewrite <- drop_drop, drop_app_length. reflexivity. }
  assert (Hq : _q_cnt h' = _q_cnt h)
    by (unfold h'; now rewrite record_all_handler).
  assert (Hseen : seen (src_path e) h' = false)
    by (apply seen_false; now rewrite Hledger).
  split; [exact Hseen|].
  unfold r. rewrite on_created_notif by now rewrite Hext, Hseen.
  rewrite notif_trace, Hq. cbn [trace handler fst snd _q_cnt set_q_cnt].
  repeat split. apply seen_true. cbn [recent_events set_q_cnt set_recent_events].
  apply elem_of_deque_append.
Qed.

Lemma forgotten_path_is_notified_again_witness :
  let e := created_at "C:\Dna\run1.xdrx" in
  let h' := handler (record_all thirty_one_paths initial) in
  seen (src_path e) h' = false /\
  _q_cnt (handler (on_created jon_world e h')) = -1.
Proof.
  destruct (forgotten_path_is_notified_again jon_world
              (created_at "C:\Dna\run1.xdrx") (tail thirty_one_paths) initial)
    as (Hs & _ & Hq & _).
  - exact initial_bounded.
  - reflexivity.
  - apply (bool_decide_unpack _). vm_compute. exact I.
  - reflexivity.
  - exact (conj Hs Hq).
Defined.
